(** * SmartNotes AI backend: flow engine and memory recall

    A shallow embedding of [main.py]: the prompt registry [FLOW_PROMPTS],
    the placeholder interpolation of [ai_tools], the heuristic
    [simple_rule_engine] and the ranking of [memory_recall], together with
    the properties of the flow-engine specification that they do or do not
    satisfy.

    Python text is a sequence of Unicode code points; it is modelled as a
    list of code points, so that [len], slicing and the one-character
    ellipsis behave as they do in the program. *)

From Stdlib Require Import NArith Ascii String.
From stdpp Require Import base list sorting gmap pretty.

Open Scope N_scope.
Open Scope list_scope.

(** ** Python strings *)

Module Py.

(** A [str]: its code points, in order. *)
Abbreviation str := (list N).

(** *** Reading the literals of the source

    [ascii_str] reads a byte string as code points below 256; [lit] reads
    a literal the way the Python source writes it: UTF-8, with the escape
    [\n] standing for a line feed. *)

Definition bytes_of (s : string) : list N :=
  map N_of_ascii (list_ascii_of_string s).

Definition ascii_str (s : string) : str := bytes_of s.

Definition cont (b : N) : N := N.land b 63.

Fixpoint decode (bs : list N) : str :=
  match bs with
  | [] => []
  | b0 :: r =>
    if (b0 =? 92) then
      match r with
      | b1 :: r1 => if b1 =? 110 then 10 :: decode r1 else b0 :: decode r
      | [] => [b0]
      end
    else if b0 <? 128 then b0 :: decode r
    else if b0 <? 224 then
      match r with
      | b1 :: r1 => (N.shiftl (N.land b0 31) 6 + cont b1) :: decode r1
      | [] => [b0]
      end
    else if b0 <? 240 then
      match r with
      | b1 :: b2 :: r2 =>
          (N.shiftl (N.land b0 15) 12 + N.shiftl (cont b1) 6 + cont b2)
            :: decode r2
      | _ => b0 :: decode r
      end
    else
      match r with
      | b1 :: b2 :: b3 :: r3 =>
          (N.shiftl (N.land b0 7) 18 + N.shiftl (cont b1) 12
           + N.shiftl (cont b2) 6 + cont b3) :: decode r3
      | _ => b0 :: decode r
      end
  end.

Definition lit (s : string) : str := decode (bytes_of s).

(** [str(n)] for a non-negative integer. *)
Definition of_nat (n : nat) : str := ascii_str (pretty n).

(** *** Character classes *)

(** [str.isspace] on one character: the code points Python treats as
    whitespace. *)
Definition isspace (c : N) : bool :=
  ((9 <=? c) && (c <=? 13)) || ((28 <=? c) && (c <=? 32))
  || (c =? 133) || (c =? 160) || (c =? 5760)
  || ((8192 <=? c) && (c <=? 8202))
  || (c =? 8232) || (c =? 8233) || (c =? 8239) || (c =? 8287)
  || (c =? 12288).

(** The line boundaries of [str.splitlines]. *)
Definition islinebreak (c : N) : bool :=
  ((10 <=? c) && (c <=? 13)) || ((28 <=? c) && (c <=? 30))
  || (c =? 133) || (c =? 8232) || (c =? 8233).

(** *** Truthiness and slicing *)

(** [a or b] on strings: the empty string is falsy. *)
Definition or_else (a b : str) : str :=
  match a with [] => b | _ :: _ => a end.

(** [x or ''] on an optional string: [None] and the empty string both
    give the empty string. *)
Definition or_empty (x : option str) : str :=
  match x with Some s => s | None => [] end.

(** [s[:n]] is [take n s]. *)

(** *** Stripping *)

Fixpoint lstrip_by (p : N -> bool) (s : str) : str :=
  match s with
  | [] => []
  | c :: s' => if p c then lstrip_by p s' else s
  end.

Definition rstrip_by (p : N -> bool) (s : str) : str :=
  rev (lstrip_by p (rev s)).

Definition strip_by (p : N -> bool) (s : str) : str :=
  rstrip_by p (lstrip_by p s).

(** [s.strip()] *)
Definition strip (s : str) : str := strip_by isspace s.

Definition mem_char (chars : str) (c : N) : bool :=
  existsb (N.eqb c) chars.

(** [s.strip(chars)] *)
Definition strip_chars (chars : str) (s : str) : str :=
  strip_by (mem_char chars) s.

(** *** Searching *)

Fixpoint starts_with (p s : str) : bool :=
  match p, s with
  | [], _ => true
  | _ :: _, [] => false
  | a :: p', b :: s' => (a =? b) && starts_with p' s'
  end.

(** [sub in s] *)
Fixpoint contains (sub s : str) : bool :=
  starts_with sub s
  || match s with
     | [] => false
     | _ :: s' => contains sub s'
     end.

(** *** Replacing and counting

    Both scan from the left and never look again at text they have
    matched; [skip] is the number of characters of the current match
    still to be passed over. *)

Fixpoint replace_go (old new : str) (skip : nat) (s : str) : str :=
  match s with
  | [] => []
  | c :: s' =>
    match skip with
    | S k => replace_go old new k s'
    | O =>
      if starts_with old s
      then new ++ replace_go old new (pred (length old)) s'
      else c :: replace_go old new O s'
    end
  end.

(** [s.replace(old, new)]; with an empty [old], [new] is inserted before
    every character and at the end. *)
Definition replace (old new s : str) : str :=
  match old with
  | [] => new ++ concat (map (fun c => c :: new) s)
  | _ :: _ => replace_go old new O s
  end.

Fixpoint count_go (sub : str) (skip : nat) (s : str) : nat :=
  match s with
  | [] => O
  | _ :: s' =>
    match skip with
    | S k => count_go sub k s'
    | O =>
      if starts_with sub s
      then S (count_go sub (pred (length sub)) s')
      else count_go sub O s'
    end
  end.

(** [s.count(sub)]; the empty string occurs [len(s) + 1] times. *)
Definition count (sub s : str) : nat :=
  match sub with
  | [] => S (length s)
  | _ :: _ => count_go sub O s
  end.

(** *** Splitting and joining *)

(** [s.split(sep)] for a one-character separator. *)
Fixpoint split_on (sep : N) (s : str) : list str :=
  match s with
  | [] => [[]]
  | c :: s' =>
    if c =? sep then [] :: split_on sep s'
    else match split_on sep s' with
         | [] => [[c]]
         | w :: ws => (c :: w) :: ws
         end
  end.

(** The words collected so far are emitted when a delimiter is met;
    [cur] holds the current piece, last character first. *)
Definition flush (cur : str) (rest : list str) : list str :=
  match cur with [] => rest | _ :: _ => rev cur :: rest end.

(** [s.split()]: pieces between runs of whitespace, none empty. *)
Fixpoint split_ws_go (cur : str) (s : str) : list str :=
  match s with
  | [] => flush cur []
  | c :: s' =>
    if isspace c then flush cur (split_ws_go [] s')
    else split_ws_go (c :: cur) s'
  end.

Definition split_ws (s : str) : list str := split_ws_go [] s.

(** [s.splitlines()]: a boundary ends a line (CR LF counts once); text
    after the last boundary is a line only when it is not empty. *)
Fixpoint splitlines_go (cur : str) (s : str) : list str :=
  match s with
  | [] => flush cur []
  | c :: s' =>
    if islinebreak c then
      rev cur ::
        match s' with
        | d :: s'' =>
            if (c =? 13) && (d =? 10) then splitlines_go [] s''
            else splitlines_go [] s'
        | [] => []
        end
    else splitlines_go (c :: cur) s'
  end.

Definition splitlines (s : str) : list str := splitlines_go [] s.

(** [sep.join(parts)] *)
Fixpoint join (sep : str) (parts : list str) : str :=
  match parts with
  | [] => []
  | [p] => p
  | p :: ps => p ++ sep ++ join sep ps
  end.

(** [x in xs] on a list of strings. *)
Definition mem (x : str) (xs : list str) : bool :=
  existsb (fun y => bool_decide (x = y)) xs.

(** *** Case mapping

    [str.lower] applies the Unicode case tables of the Python runtime,
    which are not part of the program; the development is parametric in
    it. *)
Class Lower := lower : str -> str.

(** The mapping restricted to the ASCII letters, used to run the program
    on ASCII text. *)
Definition ascii_lower_char (c : N) : N :=
  if (65 <=? c) && (c <=? 90) then c + 32 else c.

Definition ascii_lower : Lower := map ascii_lower_char.

End Py.

Import Py.

(** ** Sorting

    [sorted(xs, key=k, reverse=True)]: descending keys, and elements with
    equal keys stay in their order of arrival.  An element is inserted in
    front of the first element whose key is not greater than its own. *)

Module Sorting.

Section Sorted.
Context {A : Type} (key : A -> nat).

Fixpoint insert_desc (x : A) (l : list A) : list A :=
  match l with
  | [] => [x]
  | y :: l' =>
    if (key x <? key y)%nat then y :: insert_desc x l' else x :: y :: l'
  end.

Fixpoint sorted_reverse (l : list A) : list A :=
  match l with
  | [] => []
  | x :: l' => insert_desc x (sorted_reverse l')
  end.

(** The order of the result: keys do not increase. *)
Definition desc (a b : A) : Prop := (key b <= key a)%nat.

End Sorted.

End Sorting.

Import Sorting.

(** ** The request and response types *)

(** [AIRequest]: the flow and the seven optional inputs. *)
Record AIRequest := {
  flow : str;
  user_note : option str;
  user_syllabus : option str;
  note1 : option str;
  note2 : option str;
  voice_text : option str;
  pdf_text : option str;
  query : option str
}.

(** [HTTPException(status_code, detail)] *)
Record HTTPException := {
  status_code : N;
  detail : str
}.

(** A stored note as [get_documents] returns it.  A field is [None] when
    the document has no such key; [_id] holds the text [str] gives for the
    identifier. *)
Record note := {
  _id : option str;
  original_note : option str;
  processed_note : option str
}.

(** The answer of [memory_recall]. *)
Record recall_response := {
  summary : str;
  matches : list str
}.

(** ** The prompt registry *)

Definition FLOW_PROMPTS_items : list (str * str) := [
  (lit "summarize", lit "Summarize this note clearly and simply:\n{{user_note}}");
  (lit "rewrite", lit "Rewrite and improve this text. Make it clean, clear, and high quality:\n{{user_note}}");
  (lit "bullet_points", lit "Turn this into clean bullet points:\n{{user_note}}");
  (lit "short_version", lit "Create a short and crisp version of this:\n{{user_note}}");
  (lit "eli5", lit "Explain the following note like I am 5 years old:\n{{user_note}}");
  (lit "flashcards", lit "Create flashcards (term : definition) from this text:\n{{user_note}}");
  (lit "mcqs", lit "Create 5 MCQs with correct answers from this text:\n{{user_note}}");
  (lit "short_questions", lit "Create 5 short answer questions with answers from this text:\n{{user_note}}");
  (lit "chapter_summary", lit "Split this note into chapters/sections and summarize each one:\n{{user_note}}");
  (lit "mindmap", lit "Convert this note into a hierarchical mindmap:\n\nTopic\n\nSubtopic\n\nPoints\nText: {{user_note}}");
  (lit "smart_tags", lit "Generate 3–6 topic tags for this note:\n{{user_note}}");
  (lit "study_plan", lit "Create a 7-day and 30-day study plan for the following syllabus/topic:\n{{user_syllabus}}");
  (lit "compare_notes", lit "Compare these two notes and list similarities, differences, and key insights:\nNote 1: {{note1}}\nNote 2: {{note2}}");
  (lit "voice_cleanup", lit "Clean and format this speech transcript. Remove filler words.\nTranscript: {{voice_text}}");
  (lit "pdf_extract_summary", lit "Extract main ideas and important points from this PDF text:\n{{pdf_text}}");
  (lit "memory_recall", lit "From the saved notes, find the notes most related to: {{query}}\nSummarize the findings in simple language.")
].

Definition FLOW_PROMPTS : gmap str str := list_to_map FLOW_PROMPTS_items.

(** ** The rule engine *)

Definition nl : str := [10].

Definition truthy (s : str) : bool :=
  match s with [] => false | _ :: _ => true end.

(** [[p.strip() for p in parts if p.strip()]] *)
Definition stripped_nonempty (parts : list str) : list str :=
  map strip (List.filter (fun p => truthy (strip p)) parts).

(** The sentence segments of a body: [body.split('.')], stripped, the empty
    ones dropped. *)
Definition segments (body : str) : list str :=
  stripped_nonempty (split_on 46 body).

(** [body[:n]], followed by the ellipsis character when [len(body) > n]. *)
Definition truncate (n : nat) (body : str) : str :=
  take n body ++ (if (n <? length body)%nat then lit "…" else []).

Definition bullet_points_rule (body : str) : str :=
  let bullets := map (fun s => lit "- " ++ s) (segments body) in
  or_else (join nl bullets) body.

Definition short_and_crisp_rule (body : str) : str :=
  strip (truncate 220 body).

Definition eli5_rule (body : str) : str :=
  lit "Imagine you are 5: "
  ++ replace (lit " thus") (lit " so")
       (replace (lit " therefore") (lit " so") body).

Definition flashcards_rule (body : str) : str :=
  let parts := segments body in
  or_else
    (join nl
       (imap (fun i p =>
                lit "Term " ++ of_nat (i + 1) ++ lit ": " ++ p
                ++ lit "\nDefinition: " ++ p)
             (take 8 parts)))
    body.

Definition mcqs_rule (body : str) : str :=
  let qs := take 5 (segments body) in
  let out :=
    concat
      (imap (fun i q =>
               [ lit "Q" ++ of_nat (i + 1) ++ lit ". " ++ q ++ lit "?";
                 lit "A) Option 1";
                 lit "B) Option 2";
                 lit "C) Option 3";
                 lit "D) Option 4";
                 lit "Answer: A" ])
            qs) in
  or_else (join nl out) body.

Definition short_answer_rule (body : str) : str :=
  let qs := take 5 (segments body) in
  or_else
    (join nl
       (imap (fun i q =>
                lit "Q" ++ of_nat (i + 1) ++ lit ". " ++ q
                ++ lit "?\nAns: ...")
             qs))
    body.

Definition chapters_rule (body : str) : str :=
  let parts := segments body in
  or_else
    (join (lit "\n\n")
       (imap (fun i p =>
                lit "Chapter " ++ of_nat (i + 1) ++ lit ": " ++ p
                ++ lit "\nSummary: " ++ p)
             (take 6 parts)))
    body.

Definition mindmap_rule (body : str) : str :=
  lit "Topic\n  └─ Subtopic 1\n      └─ Point A\n  └─ Subtopic 2\n      └─ Point B\n\n"
  ++ take 200 body.

(** The punctuation stripped from a tag: comma, full stop, colon,
    semicolon, exclamation mark and double quote (code point 34). *)
Definition tag_punctuation : str := lit ",.:;!" ++ [34].

(** The loop collecting [unique]: a word not yet seen is appended, and the
    loop stops once six words are held. *)
Fixpoint tags_loop (unique : list str) (words : list str) : list str :=
  match words with
  | [] => unique
  | w :: ws =>
    let unique' := if mem w unique then unique else unique ++ [w] in
    if (6 <=? length unique')%nat then unique' else tags_loop unique' ws
  end.

Section Engine.
Context `{!Lower}.

(** [[w.strip(tag_punctuation).lower() for w in body.split() if len(w) > 4]] *)
Definition tag_words (body : str) : list str :=
  map (fun w => lower (strip_chars tag_punctuation w))
      (List.filter (fun w => (4 <? length w)%nat) (split_ws body)).

Definition smart_tags_unique (body : str) : list str :=
  take 6 (tags_loop [] (tag_words body)).

Definition smart_tags_rule (body : str) : str :=
  or_else (join (lit ", ") (smart_tags_unique body)) (lit "general, study").

Definition study_plan_rule (body : str) : str :=
  lit "7-Day Plan:\n- Day 1: Read basics\n- Day 2: Key terms\n- Day 3: Practice\n- Day 4: Review\n- Day 5: Quiz\n- Day 6: Revise\n- Day 7: Mock test\n\n"
  ++ lit "30-Day Plan:\n- Weeks 1-3: Deep dive and exercises\n- Week 4: Consolidation, mocks, revision".

Definition compare_notes_rule (body : str) : str :=
  lit "Similarities: ...\nDifferences: ...\nKey insights: ...".

Definition voice_cleanup_rule (body : str) : str :=
  replace (lit " kinda ") (lit " ")
    (replace (lit " um ") (lit " ")
       (replace (lit " uh ") (lit " ") body)).

Definition extract_main_ideas_rule (body : str) : str :=
  let bullets := map (fun s => lit "• " ++ s) (segments body) in
  or_else (join nl bullets) body.

Definition summarize_rule (body : str) : str :=
  lit "Summary: " ++ truncate 400 body.

Definition rewrite_rule (body : str) : str :=
  strip
    (replace (lit "good") (lit "excellent")
       (replace (lit "very") (lit "extremely") body)).

(** [lines]: the stripped, non-empty lines of the prompt. *)
Definition prompt_lines (prompt : str) : list str :=
  stripped_nonempty (splitlines prompt).

(** [body]: the lines after the first joined by a line feed when there
    are at least two lines, else the only line, else the empty string. *)
Definition body_of (lines : list str) : str :=
  if (1 <? length lines)%nat then join nl (drop 1 lines)
  else match lines with l0 :: _ => l0 | [] => [] end.

(** [header]: the first line, or the empty string when there is none. *)
Definition header_of (lines : list str) : str :=
  match lines with l0 :: _ => l0 | [] => [] end.

(** The chain of tests on the lowercased header, in the order of the
    source. *)
Definition apply_rules (header body : str) : str :=
  let h := lower header in
  if contains (lit "bullet points") h then bullet_points_rule body
  else if contains (lit "short and crisp") h then short_and_crisp_rule body
  else if contains (lit "explain the following note like i am 5") h
  then eli5_rule body
  else if contains (lit "flashcards") h then flashcards_rule body
  else if contains (lit "mcqs") h then mcqs_rule body
  else if contains (lit "short answer questions") h
  then short_answer_rule body
  else if contains (lit "chapters/sections") h then chapters_rule body
  else if contains (lit "mindmap") h then mindmap_rule body
  else if contains (lit "generate 3–6 topic tags") h
  then smart_tags_rule body
  else if contains (lit "study plan") h then study_plan_rule body
  else if contains (lit "compare these two notes") h
  then compare_notes_rule body
  else if contains (lit "clean and format this speech transcript") h
  then voice_cleanup_rule body
  else if contains (lit "extract main ideas") h
  then extract_main_ideas_rule body
  else if contains (lit "summarize this note") h then summarize_rule body
  else if contains (lit "rewrite and improve") h then rewrite_rule body
  else body.

Definition simple_rule_engine (prompt : str) : str :=
  let lines := prompt_lines prompt in
  let body := body_of lines in
  let header := header_of lines in
  apply_rules header body.

(** ** The flow endpoint *)

(** The seven replacements of [ai_tools], in the order they are chained. *)
Definition interpolate (req : AIRequest) (prompt : str) : str :=
  replace (lit "{{query}}") (or_empty (query req))
    (replace (lit "{{pdf_text}}") (or_empty (pdf_text req))
       (replace (lit "{{voice_text}}") (or_empty (voice_text req))
          (replace (lit "{{note2}}") (or_empty (note2 req))
             (replace (lit "{{note1}}") (or_empty (note1 req))
                (replace (lit "{{user_syllabus}}")
                   (or_empty (user_syllabus req))
                   (replace (lit "{{user_note}}") (or_empty (user_note req))
                      prompt)))))).

(** [ai_tools]: the exception raised, or the [output] of the answer. *)
Definition ai_tools (req : AIRequest) : HTTPException + str :=
  match FLOW_PROMPTS !! flow req with
  | None => inl {| status_code := 400; detail := lit "Unknown flow" |}
  | Some prompt => inr (simple_rule_engine (interpolate req prompt))
  end.

(** ** Memory recall *)

(** [n.get(key, '')] on a text field. *)
Definition get_or_empty (field : option str) : str := or_empty field.

(** The local function [score] of [memory_recall]. *)
Definition score (query : str) (n : note) : nat :=
  let text :=
    lower (get_or_empty (original_note n) ++ lit " "
           ++ get_or_empty (processed_note n)) in
  count (lower query) text.

(** One line of the summary. *)
Definition summary_line (n : note) : str :=
  lit "- "
  ++ take 80 (or_else (or_empty (processed_note n))
                (or_else (or_empty (original_note n)) []))
  ++ lit "...".

(** [str(n.get("_id"))] *)
Definition id_text (n : note) : str :=
  match _id n with Some s => s | None => lit "None" end.

(** [top = sorted(notes, key=score, reverse=True)[:5]] *)
Definition top_notes (notes : list note) (query : str) : list note :=
  take 5 (sorted_reverse (score query) notes).

(** [memory_recall]: [stored] is what [get_documents] gave, the text of
    the exception it raised or the notes; an exception becomes a 500. *)
Definition memory_recall (stored : str + list note) (query : str)
  : HTTPException + recall_response :=
  match stored with
  | inl e => inl {| status_code := 500; detail := e |}
  | inr notes =>
    let top := top_notes notes query in
    inr {| summary := join nl (map summary_line top);
           matches := map id_text top |}
  end.

End Engine.

(** ** Stored documents with fields of any type

    [note] gives each field a text or nothing.  A document of the
    collection may also hold, under a key, a value that is not a text
    ([None], a number, a list, ...).  Concatenating such a value with a
    text raises [TypeError]; [left_error] and [right_error] are the texts
    Python gives that error when the value is the left, respectively the
    right, operand of the concatenation. *)

Module Stored.

Inductive value :=
  | Text (s : str)
  | NonText (left_error right_error : str).

(** [None], with the two messages as CPython words them; the character 34
    is the double quote. *)
Definition null : value :=
  NonText
    (lit "unsupported operand type(s) for +: 'NoneType' and 'str'")
    (lit "can only concatenate str (not " ++ [34] ++ lit "NoneType" ++ [34]
     ++ lit ") to str").

(** A document; a field is [None] when the document has no such key. *)
Record document := {
  _id : option str;
  original_note : option value;
  processed_note : option value
}.

(** [n.get(key, '')] *)
Definition get_or_empty (field : option value) : value :=
  match field with Some v => v | None => Text [] end.

(** [a + b] with a text on the right, and with a text on the left: the
    text of the exception, or the concatenation. *)
Definition add_text (a : value) (b : str) : str + str :=
  match a with
  | Text s => inr (s ++ b)
  | NonText e _ => inl e
  end.

Definition text_add (a : str) (b : value) : str + str :=
  match b with
  | Text s => inr (a ++ s)
  | NonText _ e => inl e
  end.

(** A field that is a text or is absent. *)
Definition is_text (field : option value) : bool :=
  match field with Some (NonText _ _) => false | _ => true end.

Definition well_typed (d : document) : bool :=
  is_text (original_note d) && is_text (processed_note d).

Definition text_of (field : option value) : option str :=
  match field with Some (Text s) => Some s | _ => None end.

(** The note a document is when its two fields are texts or absent. *)
Definition as_note (d : document) : note :=
  Build_note (_id d) (text_of (original_note d)) (text_of (processed_note d)).

Section Recall.
Context `{!Lower}.

(** The local function [score] of [memory_recall]: the text of the
    exception it raises, or the score. *)
Definition score (query : str) (n : document) : str + nat :=
  match add_text (get_or_empty (original_note n)) (lit " ") with
  | inl e => inl e
  | inr a =>
    match text_add a (get_or_empty (processed_note n)) with
    | inl e => inl e
    | inr text => inr (count (lower query) (lower text))
    end
  end.

(** [sorted] calls the key function on every document, in the order of the
    list, before it sorts; the first exception ends the calls. *)
Fixpoint keys (query : str) (docs : list document) : str + list nat :=
  match docs with
  | [] => inr []
  | d :: ds =>
    match score query d with
    | inl e => inl e
    | inr k =>
      match keys query ds with
      | inl e => inl e
      | inr ks => inr (k :: ks)
      end
    end
  end.

(** [memory_recall] on documents: an exception of [get_documents] or of
    [score] becomes a 500 with its text.  Once every key is computed every
    field the function reads is a text or is absent, and the rest of the
    function is [memory_recall] above on the notes the documents are. *)
Definition memory_recall (stored : str + list document) (query : str)
  : HTTPException + recall_response :=
  match stored with
  | inl e => inl {| status_code := 500; detail := e |}
  | inr docs =>
    match keys query docs with
    | inl e => inl {| status_code := 500; detail := e |}
    | inr _ => memory_recall (inr (map as_note docs)) query
    end
  end.

End Recall.

End Stored.

(** ** Definitions used to state the properties *)

(** *** The dispatch as a table

    The tests of [apply_rules], in order, each with the rule it guards. *)
Section Table.
Context `{!Lower}.

Definition rules : list (str * (str -> str)) := [
  (lit "bullet points", bullet_points_rule);
  (lit "short and crisp", short_and_crisp_rule);
  (lit "explain the following note like i am 5", eli5_rule);
  (lit "flashcards", flashcards_rule);
  (lit "mcqs", mcqs_rule);
  (lit "short answer questions", short_answer_rule);
  (lit "chapters/sections", chapters_rule);
  (lit "mindmap", mindmap_rule);
  (lit "generate 3–6 topic tags", smart_tags_rule);
  (lit "study plan", study_plan_rule);
  (lit "compare these two notes", compare_notes_rule);
  (lit "clean and format this speech transcript", voice_cleanup_rule);
  (lit "extract main ideas", extract_main_ideas_rule);
  (lit "summarize this note", summarize_rule);
  (lit "rewrite and improve", rewrite_rule)
].

Definition matchers : list str := map fst rules.

(** A matcher matches a header when it occurs in the lowercased header. *)
Definition matches_header (header m : str) : bool :=
  contains m (lower header).

(** The first entry of the table whose matcher matches. *)
Definition first_rule (header : str) : option (str * (str -> str)) :=
  List.find (fun r => matches_header header (fst r)) rules.

(** The matcher that wins the dispatch, if any. *)
Definition first_match (header : str) : option str :=
  fst <$> first_rule header.

(** Header and body of a prompt. *)
Definition header (prompt : str) : str := header_of (prompt_lines prompt).
Definition body (prompt : str) : str := body_of (prompt_lines prompt).

End Table.

(** *** Placeholders *)

(** The seven input slots, in the order [ai_tools] replaces them. *)
Inductive slot :=
  | UserNote | UserSyllabus | Note1 | Note2 | VoiceText | PdfText | Query.

#[global] Instance slot_eq_dec : EqDecision slot.
Proof. solve_decision. Defined.

Definition slots : list slot :=
  [UserNote; UserSyllabus; Note1; Note2; VoiceText; PdfText; Query].

Definition slot_index (k : slot) : nat :=
  match k with
  | UserNote => 0 | UserSyllabus => 1 | Note1 => 2 | Note2 => 3
  | VoiceText => 4 | PdfText => 5 | Query => 6
  end.

(** The placeholder of a slot. *)
Definition token (k : slot) : str :=
  match k with
  | UserNote => lit "{{user_note}}"
  | UserSyllabus => lit "{{user_syllabus}}"
  | Note1 => lit "{{note1}}"
  | Note2 => lit "{{note2}}"
  | VoiceText => lit "{{voice_text}}"
  | PdfText => lit "{{pdf_text}}"
  | Query => lit "{{query}}"
  end.

(** The value a request gives to a slot, the empty string when unset. *)
Definition input (req : AIRequest) (k : slot) : str :=
  or_empty
    match k with
    | UserNote => user_note req
    | UserSyllabus => user_syllabus req
    | Note1 => note1 req
    | Note2 => note2 req
    | VoiceText => voice_text req
    | PdfText => pdf_text req
    | Query => query req
    end.

(** A template read once from the left: literal characters and slots. *)
Fixpoint parse_go (skip : nat) (s : str) : list (N + slot) :=
  match s with
  | [] => []
  | c :: s' =>
    match skip with
    | S k => parse_go k s'
    | O =>
      match List.find (fun k => starts_with (token k) s) slots with
      | Some k => inr k :: parse_go (pred (length (token k))) s'
      | None => inl c :: parse_go O s'
      end
    end
  end.

Definition parse_template (t : str) : list (N + slot) := parse_go O t.

Definition render (f : slot -> str) (tpl : list (N + slot)) : str :=
  concat (map (fun e => match e with inl c => [c] | inr k => f k end) tpl).

(** Substitution as the specification words it: every placeholder of the
    template is replaced by the value of its slot, and the values are
    literal text, not scanned for placeholders. *)
Definition substitute_literal (req : AIRequest) (t : str) : str :=
  render (input req) (parse_template t).

(** A character that occurs in some placeholder. *)
Definition token_char (c : N) : bool :=
  existsb (fun k => mem_char (token k) c) slots.

(** The shape shared by the templates of the registry: no literal opening
    brace, and after a placeholder the template ends or continues with a
    character that no placeholder contains. *)
Fixpoint well_separated (tpl : list (N + slot)) : bool :=
  match tpl with
  | [] => true
  | inl c :: r => negb (c =? 123) && well_separated r
  | inr _ :: r =>
    match r with
    | [] => true
    | inl c :: _ => negb (token_char c)
    | inr _ :: _ => false
    end && well_separated r
  end.

(** No value of a slot that the template uses contains the placeholder of
    a slot replaced later in the chain of [ai_tools]. *)
Definition rescan_free (req : AIRequest) (t : str) : Prop :=
  forall k i,
    inr k ∈ parse_template t ->
    (slot_index k < slot_index i)%nat ->
    contains (token i) (input req k) = false.

(** The texts standing for the slots after the first [j] replacements:
    values for the slots already replaced, placeholders for the others. *)
Definition mix (req : AIRequest) (j : nat) (k : slot) : str :=
  if (slot_index k <? j)%nat then input req k else token k.

(** *** Tags *)

(** The distinct elements of a list in the order they are first seen;
    [seen] holds the elements already met. *)
Fixpoint dedup_first (seen : list str) (l : list str) : list str :=
  match l with
  | [] => []
  | x :: l' =>
    if mem x seen then dedup_first seen l'
    else x :: dedup_first (seen ++ [x]) l'
  end.

Section TagsSpec.
Context `{!Lower}.

(** The tag pipeline in the order the specification words it: strip the
    punctuation, lowercase, and only then keep the words longer than 4
    characters. *)
Definition tags_strip_first (body : str) : list str :=
  take 6
    (dedup_first []
       (List.filter (fun w => (4 <? length w)%nat)
          (map (fun w => lower (strip_chars tag_punctuation w))
             (split_ws body)))).

End TagsSpec.

(** *** Voice cleanup *)

(** The body with the occurrences of the three fillers deleted. *)
Definition fillers_removed (body : str) : str :=
  replace (lit " kinda ") []
    (replace (lit " um ") [] (replace (lit " uh ") [] body)).

(** *** Recall *)

(** The 16 flow identifiers of the specification. *)
Definition recognized_flows : list str := [
  lit "summarize"; lit "rewrite"; lit "bullet_points"; lit "short_version";
  lit "eli5"; lit "flashcards"; lit "mcqs"; lit "short_questions";
  lit "chapter_summary"; lit "mindmap"; lit "smart_tags"; lit "study_plan";
  lit "compare_notes"; lit "voice_cleanup"; lit "pdf_extract_summary";
  lit "memory_recall"
].

Definition unknown_flow : HTTPException :=
  {| status_code := 400; detail := lit "Unknown flow" |}.

(** A note with its missing text fields set to the empty string. *)
Definition with_defaults (n : note) : note :=
  {| _id := _id n;
     original_note := Some (or_empty (original_note n));
     processed_note := Some (or_empty (processed_note n)) |}.

(** The text a digest line shows: the processed note when it is present
    and not empty, else the original note when present, else nothing. *)
Definition digest_text (n : note) : str :=
  match processed_note n with
  | Some (c :: p) => c :: p
  | _ => match original_note n with
         | Some s => s
         | None => []
         end
  end.


(** ** Sample inputs *)

Definition sample_request (f : string) (un q : option str) : AIRequest :=
  {| flow := lit f; user_note := un; user_syllabus := None; note1 := None;
     note2 := None; voice_text := None; pdf_text := None; query := q |}.

Definition sample_note (original processed : option str) : note :=
  {| _id := None; original_note := original; processed_note := processed |}.

(** ** The status endpoint *)

(** The [response] dictionary of [test_database]. *)
Record status_response := {
  backend : str;
  database : str;
  database_url : option str;
  database_name : option str;
  connection_status : str;
  collections : list str
}.

Definition initial_response : status_response :=
  {| backend := lit "✅ Running";
     database := lit "❌ Not Available";
     database_url := None;
     database_name := None;
     connection_status := lit "Not Connected";
     collections := [] |}.

(** The assignments [response[key] = value]. *)
Definition set_database (v : str) (r : status_response) : status_response :=
  {| backend := backend r; database := v; database_url := database_url r;
     database_name := database_name r;
     connection_status := connection_status r; collections := collections r |}.

Definition set_database_url (v : str) (r : status_response)
  : status_response :=
  {| backend := backend r; database := database r; database_url := Some v;
     database_name := database_name r;
     connection_status := connection_status r; collections := collections r |}.

Definition set_database_name (v : str) (r : status_response)
  : status_response :=
  {| backend := backend r; database := database r;
     database_url := database_url r; database_name := Some v;
     connection_status := connection_status r; collections := collections r |}.

Definition set_connection_status (v : str) (r : status_response)
  : status_response :=
  {| backend := backend r; database := database r;
     database_url := database_url r; database_name := database_name r;
     connection_status := v; collections := collections r |}.

Definition set_collections (v : list str) (r : status_response)
  : status_response :=
  {| backend := backend r; database := database r;
     database_url := database_url r; database_name := database_name r;
     connection_status := connection_status r; collections := v |}.

(** [test_database].  [db] is the database handle: [None] when [db is
    None], else what [db.list_collection_names()] does, the text of the
    exception it raises or the names it returns.  The two other arguments
    are the environment variables, [None] when unset.  Nothing in the outer
    [try] can raise outside the inner one, so the outer handler is never
    entered. *)
Definition test_database (db : option (str + list str))
    (DATABASE_URL DATABASE_NAME : option str) : status_response :=
  let response := initial_response in
  match db with
  | Some handle =>
    let response := set_database (lit "✅ Available") response in
    let response :=
      set_database_url
        (if truthy (or_empty DATABASE_URL) then lit "✅ Set"
         else lit "❌ Not Set") response in
    let response :=
      set_database_name
        (or_else (or_empty DATABASE_NAME) (lit "❌ Not Set")) response in
    match handle with
    | inr names =>
      let response := set_collections names response in
      let response := set_database (lit "✅ Connected & Working") response in
      set_connection_status (lit "Connected") response
    | inl e =>
      set_database (lit "⚠️ Connected but Error: " ++ take 80 e) response
    end
  | None => set_database (lit "⚠️ Available but not initialized") response
  end.

(** ** Definitions used to state further properties *)

(** A character that is not a line boundary. *)
Definition no_break (c : N) : bool := negb (islinebreak c).

(** A text without leading or trailing whitespace. *)
Definition trimmed (s : str) : Prop := strip s = s.

(** A text made of whitespace only. *)
Definition blank (s : str) : bool := forallb isspace s.

(** The text of a template up to its first line feed, and the text after
    that line feed. *)
Fixpoint first_line (t : str) : str :=
  match t with
  | [] => []
  | c :: t' => if c =? 10 then [] else c :: first_line t'
  end.

Fixpoint after_first_line (t : str) : str :=
  match t with
  | [] => []
  | c :: t' => if c =? 10 then t' else after_first_line t'
  end.

(** A character of a header that interpolation and line splitting leave
    alone: no opening brace, no line boundary. *)
Definition plain (c : N) : bool := negb (c =? 123) && no_break c.

(** The template starts with a line of plain characters, not empty and
    without surrounding whitespace, ended by a line feed. *)
Definition header_fixed (t : str) : bool :=
  bool_decide (t = first_line t ++ 10 :: after_first_line t)
  && forallb plain (first_line t)
  && truthy (first_line t)
  && bool_decide (strip (first_line t) = first_line t).

Section FlowRules.
Context `{!Lower}.

(** The rule each flow ends in; the flow [memory_recall], whose first line
    holds the query, is left out. *)
Definition flow_rules : list (str * (str -> str)) := [
  (lit "summarize", summarize_rule);
  (lit "rewrite", rewrite_rule);
  (lit "bullet_points", bullet_points_rule);
  (lit "short_version", short_and_crisp_rule);
  (lit "eli5", eli5_rule);
  (lit "flashcards", flashcards_rule);
  (lit "mcqs", mcqs_rule);
  (lit "short_questions", short_answer_rule);
  (lit "chapter_summary", chapters_rule);
  (lit "mindmap", mindmap_rule);
  (lit "smart_tags", smart_tags_rule);
  (lit "study_plan", study_plan_rule);
  (lit "compare_notes", compare_notes_rule);
  (lit "voice_cleanup", voice_cleanup_rule);
  (lit "pdf_extract_summary", extract_main_ideas_rule)
].

(** On the first lines of the templates, which hold ASCII letters and
    characters without case, [str.lower] lowers the ASCII letters and
    leaves the rest. *)
Definition lowers_headers : Prop :=
  forall f t, FLOW_PROMPTS !! f = Some t ->
    lower (first_line t) = map ascii_lower_char (first_line t).

End FlowRules.

(** * Properties *)

(** ** The literals and the string operations on examples *)

Example lit_dash : lit "3–6\n…" = [51; 8211; 54; 10; 8230].
Proof. reflexivity. Qed.

Example splitlines_ex :
  splitlines (lit "ab\n\ncd\n") = [lit "ab"; []; lit "cd"]
  /\ splitlines (lit "\n") = [[]]
  /\ splitlines [97; 13; 10; 98] = [[97]; [98]]
  /\ splitlines [] = [].
Proof. repeat split. Qed.

Example replace_ex :
  replace (lit "aa") (lit "b") (lit "aaaaa") = lit "bba"
  /\ replace [] (lit "-") (lit "abc") = lit "-a-b-c-"
  /\ count (lit "aa") (lit "aaaaa") = 2%nat
  /\ count [] (lit "abc") = 4%nat.
Proof. repeat split. Qed.

Example split_ex :
  split_on 46 (lit "a.b.") = [lit "a"; lit "b"; []]
  /\ split_ws (lit "  ab  c ") = [lit "ab"; lit "c"]
  /\ strip (lit "  ab  c ") = lit "ab  c"
  /\ join (lit ", ") [lit "a"; lit "b"] = lit "a, b"
  /\ of_nat 12 = lit "12".
Proof. repeat split. Qed.

(** ** The program on the examples of the specification *)

Example bullet_points_example :
  @simple_rule_engine ascii_lower
    (lit "Turn this into clean bullet points:\nFirst idea. Second idea. Third idea.")
  = lit "- First idea\n- Second idea\n- Third idea".
Proof. vm_compute. reflexivity. Qed.

Example recall_example :
  @memory_recall ascii_lower
    (inr [sample_note None (Some (lit "cats are great pets"));
          sample_note (Some (lit "dogs are loyal")) None])
    (lit "cats")
  = inr {| summary := lit "- cats are great pets...\n- dogs are loyal...";
           matches := [lit "None"; lit "None"] |}.
Proof. vm_compute. reflexivity. Qed.

(** ** Sorting by descending key *)

Section SortedFacts.
Context {A : Type} (key : A -> nat).

Lemma insert_desc_perm x l : insert_desc key x l ≡ₚ x :: l.
Proof.
  induction l as [|y l IH]; simpl; [done|].
  destruct (key x <? key y)%nat; [|done].
  rewrite IH. apply Permutation_swap.
Qed.

Lemma sorted_reverse_perm l : sorted_reverse key l ≡ₚ l.
Proof.
  induction l as [|x l IH]; simpl; [done|].
  by rewrite insert_desc_perm, IH.
Qed.

Lemma sorted_reverse_length l : length (sorted_reverse key l) = length l.
Proof. apply Permutation_length, sorted_reverse_perm. Qed.

Lemma insert_desc_sorted x l :
  StronglySorted (desc key) l -> StronglySorted (desc key) (insert_desc key x l).
Proof.
  induction l as [|y l IH]; intros Hs; simpl.
  - repeat constructor.
  - apply StronglySorted_cons in Hs as [Hy Hl].
    destruct (key x <? key y)%nat eqn:E.
    + apply Nat.ltb_lt in E.
      apply StronglySorted_cons. split; [|by apply IH].
      rewrite insert_desc_perm. constructor; [unfold desc; lia|done].
    + apply Nat.ltb_ge in E.
      apply StronglySorted_cons. split.
      * constructor; [done|].
        eapply Forall_impl; [exact Hy|]. unfold desc. intros; lia.
      * apply StronglySorted_cons. done.
Qed.

Lemma sorted_reverse_sorted l : StronglySorted (desc key) (sorted_reverse key l).
Proof.
  induction l as [|x l IH]; simpl; [constructor|].
  by apply insert_desc_sorted.
Qed.

(** Inserting does not disturb the elements of any one key: the new
    element comes first among those of its own key. *)
Lemma insert_desc_filter x l s :
  filter (fun a => key a = s) (insert_desc key x l)
  = filter (fun a => key a = s) (x :: l).
Proof.
  induction l as [|y l IH]; simpl; [done|].
  destruct (key x <? key y)%nat eqn:E; [|done].
  apply Nat.ltb_lt in E.
  rewrite filter_cons, IH, !filter_cons.
  repeat case_decide; try done; lia.
Qed.

Lemma sorted_reverse_stable l s :
  filter (fun a => key a = s) (sorted_reverse key l)
  = filter (fun a => key a = s) l.
Proof.
  induction l as [|x l IH]; simpl; [done|].
  rewrite insert_desc_filter, !filter_cons, IH. done.
Qed.

End SortedFacts.

(** ** Memory recall *)

Section Recall.
Context `{!Lower}.

Lemma top_notes_length notes q :
  length (top_notes notes q) = (5 `min` length notes)%nat.
Proof.
  unfold top_notes. by rewrite length_take, sorted_reverse_length.
Qed.

Lemma summary_line_digest n :
  summary_line n = lit "- " ++ take 80 (digest_text n) ++ lit "...".
Proof.
  unfold summary_line, digest_text.
  destruct (processed_note n) as [[|c p]|], (original_note n) as [[|d o]|];
    reflexivity.
Qed.

Lemma score_with_defaults q n : score q (with_defaults n) = score q n.
Proof.
  unfold score, with_defaults, get_or_empty; simpl.
  by destruct (original_note n), (processed_note n).
Qed.

(** C8: the ranking of recall is a stable sort by descending score, cut
    to the first five.  For every query (empty or not) and every sequence
    of notes, the answer lists the first five notes of [ranked], where
    [ranked] is a rearrangement of the notes in which scores never
    increase and in which, for every score, the notes having that score
    appear exactly in their input order. *)
Theorem C8_recall_stable_top5 (notes : list note) (q : str) :
  let ranked := sorted_reverse (score q) notes in
  top_notes notes q = take 5 ranked
  /\ (length (top_notes notes q) <= 5)%nat
  /\ ranked ≡ₚ notes
  /\ StronglySorted (fun a b => (score q b <= score q a)%nat) ranked
  /\ (forall s, filter (fun n => score q n = s) ranked
                = filter (fun n => score q n = s) notes)
  /\ memory_recall (inr notes) q
     = inr {| summary := join nl (map summary_line (take 5 ranked));
              matches := map id_text (take 5 ranked) |}.
Proof.
  intros ranked. split; [done|]. split.
  { rewrite top_notes_length. lia. }
  split; [apply sorted_reverse_perm|].
  split; [apply sorted_reverse_sorted|].
  split; [intros s; apply sorted_reverse_stable|done].
Qed.


(** On notes, whatever fields they lack, recall returns an answer; the
    score of a note is the score of the same note with its missing fields
    set to the empty string; and a summary line shows the processed note,
    else the original note, else nothing. *)
Lemma recall_missing_fields (notes : list note) (q : str) :
  (exists r, memory_recall (inr notes) q = inr r
     /\ matches r = map id_text (top_notes notes q)
     /\ summary r = join nl (map summary_line (top_notes notes q)))
  /\ (forall n, score q n = score q (with_defaults n))
  /\ (forall n, score q n
        = count (lower q)
            (lower (or_empty (original_note n) ++ lit " "
                    ++ or_empty (processed_note n))))
  /\ (forall n, summary_line n
        = lit "- " ++ take 80 (digest_text n) ++ lit "...").
Proof.
  split; [by eexists|].
  split; [intros n; symmetry; apply score_with_defaults|].
  split; [done|]. apply summary_line_digest.
Qed.

End Recall.

(** *** Documents with fields that are not texts *)

Section StoredRecall.
Context `{!Lower}.

Lemma stored_score_typed q d :
  Stored.well_typed d = true ->
  Stored.score q d = inr (score q (Stored.as_note d)).
Proof.
  destruct d as [i [[o|lo ro]|] [[p|lp rp]|]]; intros Hd;
    try (cbv in Hd; discriminate Hd);
    cbv beta iota delta
      [Stored.score Stored.add_text Stored.text_add Stored.get_or_empty
       Stored.original_note Stored.processed_note Stored.as_note
       Stored.text_of score get_or_empty original_note processed_note];
    rewrite <- app_assoc; reflexivity.
Qed.

Lemma stored_score_untyped q d :
  Stored.well_typed d = false -> exists e, Stored.score q d = inl e.
Proof.
  destruct d as [i [[o|lo ro]|] [[p|lp rp]|]]; intros Hd;
    try (cbv in Hd; discriminate Hd); by eexists.
Qed.

Lemma stored_keys_typed q docs :
  forallb Stored.well_typed docs = true ->
  Stored.keys q docs = inr (map (fun d => score q (Stored.as_note d)) docs).
Proof.
  induction docs as [|d ds IH]; [done|]. cbn [forallb Stored.keys map].
  intros Hd. apply andb_prop in Hd as [Hd Hds].
  by rewrite (stored_score_typed q d Hd), (IH Hds).
Qed.

Lemma stored_keys_untyped q docs :
  forallb Stored.well_typed docs = false ->
  exists e, Stored.keys q docs = inl e.
Proof.
  induction docs as [|d ds IH]; [discriminate|]. cbn [forallb Stored.keys].
  intros Hd. destruct (Stored.well_typed d) eqn:Ed.
  - rewrite (stored_score_typed q d Ed). destruct (IH Hd) as [e ->].
    by exists e.
  - destruct (stored_score_untyped q d Ed) as [e ->]. by exists e.
Qed.

(** C10 (as amended): on documents whose [original_note] and
    [processed_note] are each absent or a text, recall is total: it
    returns an answer, the one it gives for the notes the documents are,
    with [min 5 n] matches; a missing field counts as the empty string in
    the score, and a summary line shows the processed note, else the
    original note, else nothing.  A document that holds a value that is
    not a text under one of the two keys makes [score] raise, and recall
    answers with the exception 500. *)
Theorem C10_recall_stored_fields (docs : list Stored.document) (q : str) :
  (forallb Stored.well_typed docs = true ->
   Stored.memory_recall (inr docs) q
   = memory_recall (inr (map Stored.as_note docs)) q
   /\ exists r, Stored.memory_recall (inr docs) q = inr r
        /\ length (matches r) = (5 `min` length docs)%nat)
  /\ (forallb Stored.well_typed docs = false ->
      exists e, Stored.memory_recall (inr docs) q
                = inl {| status_code := 500; detail := e |})
  /\ (forall d, Stored.well_typed d = true ->
        Stored.score q d = inr (score q (Stored.as_note d)))
  /\ (forall n, score q n = score q (with_defaults n))
  /\ (forall n, summary_line n
        = lit "- " ++ take 80 (digest_text n) ++ lit "...").
Proof.
  split; [|split; [|split; [|split]]].
  - intros Hd. unfold Stored.memory_recall.
    rewrite (stored_keys_typed q docs Hd). split; [done|].
    eexists. split; [done|]. cbn [matches].
    by rewrite length_map, top_notes_length, length_map.
  - intros Hd. unfold Stored.memory_recall.
    destruct (stored_keys_untyped q docs Hd) as [e ->]. by exists e.
  - intros d. apply stored_score_typed.
  - intros n. symmetry. apply score_with_defaults.
  - apply summary_line_digest.
Qed.

End StoredRecall.

Lemma C10_recall_stored_witness :
  let docs :=
    [ {| Stored._id := Some (lit "1"); Stored.original_note := None;
         Stored.processed_note := Some (Stored.Text (lit "cats are great pets")) |};
      {| Stored._id := None;
         Stored.original_note := Some (Stored.Text (lit "dogs are loyal"));
         Stored.processed_note := None |} ] in
  @Stored.memory_recall ascii_lower (inr docs) (lit "cats")
  = inr {| summary := lit "- cats are great pets...\n- dogs are loyal...";
           matches := [lit "1"; lit "None"] |}.
Proof.
  intros docs.
  destruct (@C10_recall_stored_fields ascii_lower docs (lit "cats"))
    as [Htyped _].
  destruct (Htyped eq_refl) as [-> _]. vm_compute. reflexivity.
Defined.

(** C10 (as stated) fails: a document whose [original_note] is [None]
    makes [score] raise, and recall answers 500 instead of ranking. *)
Lemma C10_null_field_counterexample :
  let docs :=
    [ {| Stored._id := Some (lit "1");
         Stored.original_note := Some Stored.null;
         Stored.processed_note := Some (Stored.Text (lit "cats")) |} ] in
  @Stored.memory_recall ascii_lower (inr docs) (lit "cats")
  = inl {| status_code := 500;
           detail := lit "unsupported operand type(s) for +: 'NoneType' and 'str'" |}
  /\ forall r, @Stored.memory_recall ascii_lower (inr docs) (lit "cats")
               <> inr r.
Proof.
  intros docs.
  assert (E : @Stored.memory_recall ascii_lower (inr docs) (lit "cats")
              = inl {| status_code := 500;
                       detail := lit "unsupported operand type(s) for +: 'NoneType' and 'str'" |})
    by reflexivity.
  split; [exact E|]. intros r. rewrite E. discriminate.
Qed.


(** ** The dispatch of the rule engine *)

Section Dispatch.
Context `{!Lower}.

(** The chain of tests is the first matching entry of the table. *)
Lemma apply_rules_first_rule hd bd :
  apply_rules hd bd
  = match first_rule hd with
    | Some r => snd r bd
    | None => bd
    end.
Proof.
  unfold apply_rules, first_rule, rules, matches_header.
  cbv beta iota zeta delta [List.find fst snd].
  repeat
    match goal with
    | |- context [contains ?m (lower hd)] =>
        destruct (contains m (lower hd)); [reflexivity|]
    end.
  reflexivity.
Qed.

Lemma simple_rule_engine_dispatch prompt :
  simple_rule_engine prompt = apply_rules (header prompt) (body prompt).
Proof. reflexivity. Qed.

Lemma first_rule_none hd :
  (forall m, m ∈ matchers -> matches_header hd m = false) ->
  first_rule hd = None.
Proof.
  intros Hno. unfold first_rule.
  destruct (List.find _ rules) as [r|] eqn:E; [|done].
  apply find_some in E as [Hin Hm].
  rewrite Hno in Hm; [done|].
  unfold matchers. apply list_elem_of_fmap. exists r. split; [done|].
  by apply list_elem_of_In.
Qed.

Lemma first_match_rule hd m :
  first_match hd = Some m ->
  exists rule, first_rule hd = Some (m, rule).
Proof.
  unfold first_match. destruct (first_rule hd) as [[m' rule]|]; [|done].
  simpl. intros [= ->]. by exists rule.
Qed.

(** C9: a prompt whose header matches none of the matchers is answered
    with its body, unchanged. *)
Theorem C9_no_match_returns_body (prompt : str)
  (Hno : forall m, m ∈ matchers -> contains m (lower (header prompt)) = false) :
  simple_rule_engine prompt = body prompt.
Proof.
  rewrite simple_rule_engine_dispatch, apply_rules_first_rule.
  by rewrite first_rule_none.
Qed.

(** C6 (as amended): when a prompt has exactly one non-empty stripped
    line, that line is both the header the matchers are tested on and the
    body the rule is applied to: the engine answers with the rule of the
    first matcher, in the order of the tests, found in the line, applied to
    the line itself, or with the line when no matcher is found. *)
Theorem C6_single_line_header_is_body (prompt l : str)
  (Hone : prompt_lines prompt = [l]) :
  header prompt = l
  /\ body prompt = l
  /\ simple_rule_engine prompt = apply_rules l l
  /\ (forall m rule, first_rule l = Some (m, rule) ->
        simple_rule_engine prompt = rule l)
  /\ (first_rule l = None -> simple_rule_engine prompt = l).
Proof.
  assert (Hh : header prompt = l) by (unfold header; by rewrite Hone).
  assert (Hb : body prompt = l) by (unfold body; by rewrite Hone).
  split; [done|]. split; [done|].
  rewrite simple_rule_engine_dispatch, Hh, Hb.
  split; [done|]. rewrite apply_rules_first_rule.
  split; [intros m rule ->; done|intros ->; done].
Qed.

End Dispatch.

Lemma C9_no_match_witness :
  @simple_rule_engine ascii_lower (lit "Hello there\nsecond line\n\n  third ")
  = lit "second line\nthird".
Proof.
  rewrite (@C9_no_match_returns_body ascii_lower); [reflexivity|].
  intros m Hm. apply list_elem_of_In in Hm.
  vm_compute in Hm.
  repeat (destruct Hm as [<-|Hm]; [vm_compute; reflexivity|]). destruct Hm.
Defined.

Lemma C6_single_line_witness :
  let prompt := lit "\n  Bullet points. Two. \n" in
  let l := lit "Bullet points. Two." in
  prompt_lines prompt = [l]
  /\ @simple_rule_engine ascii_lower prompt = @apply_rules ascii_lower l l
  /\ @simple_rule_engine ascii_lower prompt = lit "- Bullet points\n- Two".
Proof.
  intros prompt l.
  assert (Hone : prompt_lines prompt = [l]) by (vm_compute; reflexivity).
  split; [exact Hone|]. split; [|vm_compute; reflexivity].
  apply (@C6_single_line_header_is_body ascii_lower prompt l Hone).
Defined.

(** C6 (as stated) fails in its last clause: the one line below contains
    the matcher "short and crisp", but it also contains "bullet points",
    which is tested first; the line is answered by the bullet rule, not by
    the short-and-crisp rule applied to it. *)
Lemma C6_priority_counterexample :
  let prompt := lit "Bullet points, short and crisp" in
  prompt_lines prompt = [prompt]
  /\ contains (lit "short and crisp") (ascii_lower prompt) = true
  /\ @simple_rule_engine ascii_lower prompt
     = lit "- Bullet points, short and crisp"
  /\ short_and_crisp_rule prompt = lit "Bullet points, short and crisp"
  /\ @simple_rule_engine ascii_lower prompt <> short_and_crisp_rule prompt.
Proof.
  intros prompt. repeat split; try (vm_compute; reflexivity).
  vm_compute. discriminate.
Qed.

(** ** Stripping *)

Section Strip.
Context (p : N -> bool).

Lemma lstrip_by_head s :
  match lstrip_by p s with
  | [] => True
  | c :: _ => p c = false
  end.
Proof.
  induction s as [|c s IH]; simpl; [done|].
  destruct (p c) eqn:E; [exact IH|exact E].
Qed.

Lemma lstrip_by_snoc l c :
  p c = false -> exists u, lstrip_by p (l ++ [c]) = u ++ [c].
Proof.
  intros Hc. induction l as [|d l IH]; simpl.
  - rewrite Hc. by exists [].
  - destruct (p d); [exact IH|]. by exists (d :: l).
Qed.

Lemma strip_by_head s c r : strip_by p s = c :: r -> p c = false.
Proof.
  unfold strip_by, rstrip_by. pose proof (lstrip_by_head s) as Hh.
  destruct (lstrip_by p s) as [|d t]; [discriminate|].
  simpl rev. destruct (lstrip_by_snoc (rev t) d Hh) as [u ->].
  rewrite rev_unit. by intros [= <- _].
Qed.

Lemma strip_by_fixed c m d :
  p c = false -> p d = false ->
  strip_by p (c :: m ++ [d]) = c :: m ++ [d].
Proof.
  intros Hc Hd. unfold strip_by, rstrip_by. cbn [lstrip_by]. rewrite Hc.
  change (c :: m ++ [d]) with ((c :: m) ++ [d]).
  rewrite rev_unit. cbn [lstrip_by]. rewrite Hd.
  by rewrite <- rev_unit, rev_involutive.
Qed.

End Strip.

(** ** The lines of a prompt *)

Lemma stripped_nonempty_head parts l :
  l ∈ stripped_nonempty parts ->
  exists c r, l = c :: r /\ isspace c = false.
Proof.
  unfold stripped_nonempty. intros Hin.
  apply list_elem_of_fmap in Hin as (x & -> & Hx).
  apply list_elem_of_In, filter_In in Hx as [_ Ht].
  destruct (strip x) as [|c r] eqn:E; [discriminate|].
  exists c, r. split; [done|]. exact (strip_by_head _ _ _ _ E).
Qed.

Lemma join_cons_head sep c r ps :
  exists t, join sep ((c :: r) :: ps) = c :: t.
Proof. destruct ps; simpl; eauto. Qed.

(** The body of a prompt never starts with whitespace. *)
Lemma body_head prompt c r : body prompt = c :: r -> isspace c = false.
Proof.
  unfold body, body_of, prompt_lines.
  pose proof (stripped_nonempty_head (splitlines prompt)) as Hl.
  destruct (stripped_nonempty (splitlines prompt)) as [|l0 [|l1 ls]].
  - discriminate.
  - cbn [length Nat.ltb Nat.leb]. intros E.
    destruct (Hl l0) as (c' & r' & E' & Hc); [apply list_elem_of_here|].
    congruence.
  - cbn [length Nat.ltb Nat.leb drop].
    destruct (Hl l1) as (c' & r' & -> & Hc);
      [apply list_elem_of_further, list_elem_of_here|].
    destruct (join_cons_head nl c' r' ls) as [t ->]. congruence.
Qed.

(** ** The short-and-crisp rule *)

Lemma truncate_long n bd :
  (n < length bd)%nat -> truncate n bd = take n bd ++ lit "…".
Proof.
  intros Hn. unfold truncate.
  destruct (n <? length bd)%nat eqn:E; [done|].
  apply Nat.ltb_ge in E. lia.
Qed.

Section ShortAndCrisp.
Context `{!Lower}.

(** C7 (as amended): under a header that contains "short and crisp" and
    not the earlier matcher "bullet points", a body of exactly 300
    characters is answered by its first 220 characters followed by the
    ellipsis character, 221 characters in all. *)
Theorem C7_short_and_crisp_300 (prompt : str)
  (Hprio : contains (lit "bullet points") (lower (header prompt)) = false)
  (Hm : contains (lit "short and crisp") (lower (header prompt)) = true)
  (Hlen : length (body prompt) = 300%nat) :
  simple_rule_engine prompt = take 220 (body prompt) ++ lit "…"
  /\ length (simple_rule_engine prompt) = 221%nat.
Proof.
  assert (Hout : simple_rule_engine prompt = take 220 (body prompt) ++ lit "…").
  { rewrite simple_rule_engine_dispatch. unfold apply_rules.
    rewrite Hprio, Hm. unfold short_and_crisp_rule.
    rewrite truncate_long by lia.
    destruct (body prompt) as [|c r] eqn:Eb; [discriminate|].
    change (take 220 (c :: r)) with (c :: take 219 r).
    apply strip_by_fixed; [|reflexivity].
    exact (body_head _ _ _ Eb). }
  split; [exact Hout|].
  rewrite Hout, length_app, length_take, Hlen. reflexivity.
Qed.

End ShortAndCrisp.

Lemma C7_short_and_crisp_witness :
  let prompt :=
    lit "Create a short and crisp version of this:\n" ++ replicate 300 97 in
  @simple_rule_engine ascii_lower prompt = replicate 220 97 ++ lit "…"
  /\ length (@simple_rule_engine ascii_lower prompt) = 221%nat.
Proof.
  intros prompt.
  destruct (@C7_short_and_crisp_300 ascii_lower prompt) as [Hout Hlen];
    [vm_compute; reflexivity..|].
  split; [|exact Hlen]. rewrite Hout. vm_compute. reflexivity.
Defined.

(** C7 (as stated) fails: the header below contains "short and crisp" and
    the body has 300 characters, but the header also contains
    "bullet points", which is tested first; the answer is the body as one
    bullet, 302 characters long. *)
Lemma C7_priority_counterexample :
  let prompt :=
    lit "Bullet points, short and crisp:\n" ++ replicate 300 97 in
  contains (lit "short and crisp") (ascii_lower (header prompt)) = true
  /\ length (body prompt) = 300%nat
  /\ @simple_rule_engine ascii_lower prompt = lit "- " ++ replicate 300 97
  /\ length (@simple_rule_engine ascii_lower prompt) <> 221%nat
  /\ @simple_rule_engine ascii_lower prompt
     <> take 220 (body prompt) ++ lit "…".
Proof.
  intros prompt.
  assert (Hout : @simple_rule_engine ascii_lower prompt
                 = lit "- " ++ replicate 300 97) by (vm_compute; reflexivity).
  split; [vm_compute; reflexivity|]. split; [vm_compute; reflexivity|].
  split; [exact Hout|]. rewrite Hout.
  split; [vm_compute; discriminate|].
  intros E. apply (f_equal length) in E. vm_compute in E. discriminate.
Qed.

(** ** Which rule a matcher selects *)

Section Selection.
Context `{!Lower}.

Lemma first_match_apply hd bd m :
  first_match hd = Some m ->
  exists r, In (m, r) rules /\ apply_rules hd bd = r bd.
Proof.
  rewrite apply_rules_first_rule. unfold first_match.
  destruct (first_rule hd) as [[m' r]|] eqn:E; [|discriminate].
  simpl. intros [= ->]. exists r. split; [|done].
  unfold first_rule in E. by apply find_some in E as [Hin _].
Qed.

End Selection.

(** Goes through the entries of the table: the matchers are pairwise
    different, so an entry with a given matcher carries one rule. *)
Ltac rule_cases H :=
  unfold rules in H; cbv beta iota zeta delta [In] in H;
  repeat
    (destruct H as [H|H];
     [ let Hm := fresh "Hm" in
       let Hr := fresh "Hr" in
       apply pair_equal_spec in H as [Hm Hr];
       first [ by (vm_compute in Hm; discriminate Hm) | by symmetry ]
     | ]);
  destruct H.

Section Selected.
Context `{!Lower}.

Lemma rule_of_smart_tags r :
  In (lit "generate 3–6 topic tags", r) rules -> r = smart_tags_rule.
Proof. intros Hin. rule_cases Hin. Qed.

Lemma rule_of_voice_cleanup r :
  In (lit "clean and format this speech transcript", r) rules ->
  r = voice_cleanup_rule.
Proof. intros Hin. rule_cases Hin. Qed.

End Selected.

(** ** Replacing *)

Lemma contains_cons_false sub c s :
  contains sub (c :: s) = false ->
  starts_with sub (c :: s) = false /\ contains sub s = false.
Proof. simpl contains. intros Hc. by apply orb_false_elim in Hc. Qed.

(** Text without an occurrence of [old] is left as it is. *)
Lemma replace_absent old new s :
  contains old s = false -> replace old new s = s.
Proof.
  destruct old as [|o old]; [by destruct s|].
  unfold replace. induction s as [|c s IH]; [done|].
  intros Hc. apply contains_cons_false in Hc as [Hs Hc].
  cbn [replace_go]. rewrite Hs. f_equal. by apply IH.
Qed.

(** ** The voice-cleanup rule *)

Section VoiceCleanup.
Context `{!Lower}.

(** C4 (as amended): when the voice-cleanup matcher is the first to match
    the header, the answer is the body in which, scanning from the left
    and without overlap, the occurrences of " uh ", then those of " um ",
    then those of " kinda " are each replaced by one space; a body with no
    occurrence of the three is answered unchanged. *)
Theorem C4_voice_cleanup (prompt : str)
  (Hsel : first_match (header prompt)
          = Some (lit "clean and format this speech transcript")) :
  simple_rule_engine prompt
  = replace (lit " kinda ") (lit " ")
      (replace (lit " um ") (lit " ")
         (replace (lit " uh ") (lit " ") (body prompt)))
  /\ (contains (lit " uh ") (body prompt) = false ->
      contains (lit " um ") (body prompt) = false ->
      contains (lit " kinda ") (body prompt) = false ->
      simple_rule_engine prompt = body prompt).
Proof.
  rewrite simple_rule_engine_dispatch.
  destruct (first_match_apply _ (body prompt) _ Hsel) as (r & Hin & ->).
  apply rule_of_voice_cleanup in Hin as ->.
  split; [done|]. intros Huh Hum Hkinda. unfold voice_cleanup_rule.
  by rewrite (replace_absent _ _ _ Huh), (replace_absent _ _ _ Hum),
       (replace_absent _ _ _ Hkinda).
Qed.

End VoiceCleanup.

Lemma C4_voice_cleanup_witness :
  let prompt :=
    lit "Clean and format this speech transcript. Remove filler words.\nTranscript: so um we kinda met" in
  @simple_rule_engine ascii_lower prompt = lit "Transcript: so we met".
Proof.
  intros prompt.
  destruct (@C4_voice_cleanup ascii_lower prompt) as [-> _];
    vm_compute; reflexivity.
Defined.

(** C4 (as stated) fails: in "x uh uh y" the two fillers share a space;
    the answer still contains " uh ", and it is not the body with the
    fillers deleted either. *)
Lemma C4_filler_counterexample :
  let prompt :=
    lit "Clean and format this speech transcript\nx uh uh y" in
  @first_match ascii_lower (header prompt)
  = Some (lit "clean and format this speech transcript")
  /\ body prompt = lit "x uh uh y"
  /\ @simple_rule_engine ascii_lower prompt = lit "x uh y"
  /\ contains (lit " uh ") (@simple_rule_engine ascii_lower prompt) = true
  /\ fillers_removed (body prompt) = lit "xuh y"
  /\ @simple_rule_engine ascii_lower prompt <> fillers_removed (body prompt).
Proof.
  intros prompt. repeat split; try (vm_compute; reflexivity).
  vm_compute. discriminate.
Qed.

(** ** The smart-tags rule *)

Lemma mem_spec x xs : mem x xs = true <-> x ∈ xs.
Proof.
  unfold mem. rewrite existsb_exists. split.
  - intros (y & Hy & E). apply bool_decide_eq_true in E as ->.
    by apply list_elem_of_In.
  - intros Hx. exists x. split; [by apply list_elem_of_In|].
    by apply bool_decide_eq_true.
Qed.

Lemma mem_false x xs : mem x xs = false <-> x ∉ xs.
Proof.
  rewrite <- mem_spec. destruct (mem x xs); split; congruence.
Qed.

(** The loop computes the first six of the words in first-seen order. *)
Lemma tags_loop_dedup u ws :
  (length u < 6)%nat ->
  tags_loop u ws = take 6 (u ++ dedup_first u ws).
Proof.
  revert u. induction ws as [|w ws IH]; intros u Hu.
  - simpl. rewrite app_nil_r. symmetry. apply take_ge. lia.
  - cbn [tags_loop dedup_first]. destruct (mem w u) eqn:Em.
    + destruct (6 <=? length u)%nat eqn:E6.
      { apply Nat.leb_le in E6. lia. }
      by apply IH.
    + destruct (6 <=? length (u ++ [w]))%nat eqn:E6.
      * apply Nat.leb_le in E6. rewrite length_app in E6. simpl in E6.
        rewrite (cons_middle w u (dedup_first _ ws)), app_assoc.
        rewrite take_app_length'; [done|].
        rewrite length_app. simpl. lia.
      * apply Nat.leb_gt in E6. rewrite IH by done.
        by rewrite <- app_assoc.
Qed.

Lemma dedup_first_elem seen l x :
  x ∈ dedup_first seen l <-> x ∈ l /\ x ∉ seen.
Proof.
  revert seen. induction l as [|y l IH]; intros seen; simpl.
  - split; [intros Hx|intros [Hx _]]; inversion Hx.
  - destruct (mem y seen) eqn:Em.
    + apply mem_spec in Em. rewrite IH, elem_of_cons.
      split; [tauto|]. intros [[->|Hx] Hs]; [contradiction|done].
    + apply mem_false in Em.
      rewrite !elem_of_cons, IH, elem_of_app, list_elem_of_singleton.
      destruct (decide (x = y)) as [->|Hne]; tauto.
Qed.

Lemma dedup_first_NoDup seen l : NoDup (dedup_first seen l).
Proof.
  revert seen. induction l as [|y l IH]; intros seen; simpl.
  - constructor.
  - destruct (mem y seen); [apply IH|].
    constructor; [|apply IH]. rewrite dedup_first_elem, elem_of_app.
    intros [_ Hn]. apply Hn. right. apply list_elem_of_here.
Qed.

Lemma dedup_first_sublist seen l : dedup_first seen l `sublist_of` l.
Proof.
  revert seen. induction l as [|y l IH]; intros seen; simpl; [done|].
  destruct (mem y seen).
  - by apply sublist_cons.
  - by apply sublist_skip.
Qed.

Section SmartTags.
Context `{!Lower}.

Lemma smart_tags_unique_dedup bd :
  smart_tags_unique bd = take 6 (dedup_first [] (tag_words bd)).
Proof.
  unfold smart_tags_unique. rewrite tags_loop_dedup by (simpl; lia).
  simpl. by rewrite take_take.
Qed.

Lemma tag_words_elem bd w :
  w ∈ tag_words bd ->
  exists t, t ∈ split_ws bd /\ (4 < length t)%nat
            /\ w = lower (strip_chars tag_punctuation t).
Proof.
  unfold tag_words. intros Hw.
  apply list_elem_of_fmap in Hw as (t & -> & Ht).
  apply list_elem_of_In, filter_In in Ht as [Ht Hlen].
  exists t. split; [by apply list_elem_of_In|].
  split; [by apply Nat.ltb_lt|done].
Qed.

(** C3 (as amended): when the smart-tags matcher is the first to match the
    header, the body is split on whitespace, the tokens longer than 4
    characters are kept (the length is that of the token before
    stripping), each kept token is stripped of the punctuation and
    lowercased, and the first six distinct results, in first-seen order,
    are joined by a comma and a space.  The words are distinct, at most
    six, and each is the stripped lowercase form of a token longer than 4
    characters; the answer is "general, study" when the joined text is
    empty, as it is when no token is longer than 4 characters. *)
Theorem C3_smart_tags (prompt : str)
  (Hsel : first_match (header prompt) = Some (lit "generate 3–6 topic tags")) :
  let unique := take 6 (dedup_first [] (tag_words (body prompt))) in
  simple_rule_engine prompt
  = or_else (join (lit ", ") unique) (lit "general, study")
  /\ NoDup unique
  /\ (length unique <= 6)%nat
  /\ unique `sublist_of` tag_words (body prompt)
  /\ (forall w, w ∈ unique ->
        exists t, t ∈ split_ws (body prompt) /\ (4 < length t)%nat
                  /\ w = lower (strip_chars tag_punctuation t))
  /\ ((forall t, t ∈ split_ws (body prompt) -> (length t <= 4)%nat) ->
      simple_rule_engine prompt = lit "general, study").
Proof.
  intros unique.
  assert (Hout : simple_rule_engine prompt
                 = or_else (join (lit ", ") unique) (lit "general, study")).
  { rewrite simple_rule_engine_dispatch.
    destruct (first_match_apply _ (body prompt) _ Hsel) as (r & Hin & ->).
    apply rule_of_smart_tags in Hin as ->.
    unfold smart_tags_rule. by rewrite smart_tags_unique_dedup. }
  assert (Hsub : unique `sublist_of` tag_words (body prompt)).
  { etrans; [apply sublist_take|apply dedup_first_sublist]. }
  split; [exact Hout|].
  split; [eapply sublist_NoDup; [apply dedup_first_NoDup|apply sublist_take]|].
  split; [unfold unique; rewrite length_take; lia|].
  split; [exact Hsub|]. split.
  - intros w Hw. apply tag_words_elem. by eapply elem_of_sublist.
  - intros Hshort. rewrite Hout.
    assert (Hnil : tag_words (body prompt) = []).
    { destruct (tag_words (body prompt)) as [|w ws] eqn:E; [done|].
      destruct (tag_words_elem (body prompt) w) as (t & Ht & Hlen & _).
      - rewrite E. apply list_elem_of_here.
      - apply Hshort in Ht. lia. }
    unfold unique. by rewrite Hnil.
Qed.

End SmartTags.

Lemma C3_smart_tags_witness :
  let prompt :=
    lit "Generate 3–6 topic tags for this note:\nPhotosynthesis converts sunlight energy into glucose inside plant cells" in
  @simple_rule_engine ascii_lower prompt
  = lit "photosynthesis, converts, sunlight, energy, glucose, inside".
Proof.
  intros prompt.
  destruct (@C3_smart_tags ascii_lower prompt) as [-> _];
    vm_compute; reflexivity.
Defined.

(** C3 (as stated) fails: the token "abc,," has 5 characters and is kept,
    and stripping leaves the 3-character word "abc" in the answer;
    stripping before measuring would keep no word. *)
Lemma C3_short_word_counterexample :
  let prompt := lit "Generate 3–6 topic tags for this note:\nabc,," in
  @first_match ascii_lower (header prompt)
  = Some (lit "generate 3–6 topic tags")
  /\ body prompt = lit "abc,,"
  /\ @smart_tags_unique ascii_lower (body prompt) = [lit "abc"]
  /\ @simple_rule_engine ascii_lower prompt = lit "abc"
  /\ length (lit "abc") = 3%nat
  /\ @tags_strip_first ascii_lower (body prompt) = [].
Proof. intros prompt. repeat split; vm_compute; reflexivity. Qed.

(** ** Replacing, one occurrence at a time *)

Lemma replace_go_miss old new c s :
  starts_with old (c :: s) = false ->
  replace_go old new O (c :: s) = c :: replace_go old new O s.
Proof. intros Hs. cbn [replace_go]. by rewrite Hs. Qed.

Lemma replace_go_skip old new pre s :
  replace_go old new (length pre) (pre ++ s) = replace_go old new O s.
Proof. induction pre as [|c pre IH]; [done|exact IH]. Qed.

Lemma starts_with_app p s : starts_with p (p ++ s) = true.
Proof.
  induction p as [|a p IH]; [done|].
  simpl. by rewrite N.eqb_refl, IH.
Qed.

Lemma replace_go_hit o old new s :
  replace_go (o :: old) new O ((o :: old) ++ s)
  = new ++ replace_go (o :: old) new O s.
Proof.
  change ((o :: old) ++ s) with (o :: (old ++ s)). cbn [replace_go].
  change (o :: old ++ s) with ((o :: old) ++ s).
  rewrite starts_with_app. f_equal.
  change (pred (length (o :: old))) with (length old).
  apply replace_go_skip.
Qed.

Lemma replace_go_absent o old new s :
  contains (o :: old) s = false -> replace_go (o :: old) new O s = s.
Proof. exact (replace_absent (o :: old) new s). Qed.

(** An occurrence that starts in [v] cannot run over a following character
    that [old] does not contain. *)
Lemma starts_with_separator old v c rest :
  mem_char old c = false ->
  starts_with old (v ++ c :: rest) = true ->
  starts_with old v = true.
Proof.
  revert v. induction old as [|a old IH]; intros v Hc Hs; [done|].
  cbn [mem_char existsb] in Hc. apply orb_false_elim in Hc as [Hca Hc].
  destruct v as [|b v].
  - simpl in Hs. apply andb_prop in Hs as [Hab _].
    apply N.eqb_eq in Hab as ->. by rewrite N.eqb_refl in Hca.
  - simpl in Hs |- *. apply andb_prop in Hs as [-> Hs]. simpl.
    by apply IH.
Qed.

Lemma replace_go_value old new v c rest :
  contains old v = false ->
  mem_char old c = false ->
  replace_go old new O (v ++ c :: rest)
  = v ++ replace_go old new O (c :: rest).
Proof.
  intros Hv Hc. induction v as [|b v IH]; [done|].
  apply contains_cons_false in Hv as [Hs Hv].
  change ((b :: v) ++ c :: rest) with (b :: (v ++ c :: rest)).
  rewrite replace_go_miss.
  - simpl. f_equal. by apply IH.
  - destruct (starts_with old (b :: v ++ c :: rest)) eqn:E; [|done].
    apply (starts_with_separator old (b :: v) c rest Hc) in E. congruence.
Qed.

(** ** Placeholders *)

Lemma token_head i : exists t, token i = 123 :: t.
Proof. destruct i; eexists; vm_compute; reflexivity. Qed.

Lemma token_distinct i k :
  k <> i -> contains (token i) (token k) = false.
Proof. destruct i, k; intros Hne; try done; vm_compute; reflexivity. Qed.

Lemma token_char_false c i :
  token_char c = false -> mem_char (token i) c = false.
Proof.
  intros Hc. destruct (mem_char (token i) c) eqn:E; [|done].
  assert (Ht : token_char c = true); [|congruence].
  apply existsb_exists. exists i. split; [|done].
  destruct i; simpl; tauto.
Qed.

Lemma replace_token i v s :
  replace (token i) v s = replace_go (token i) v O s.
Proof. destruct (token_head i) as [t ->]. reflexivity. Qed.

Lemma render_ext f g tpl :
  (forall k, f k = g k) -> render f tpl = render g tpl.
Proof.
  intros Hfg. unfold render. f_equal. apply map_ext.
  intros [c|k]; [done|apply Hfg].
Qed.

Lemma render_cons_lit f c tpl : render f (inl c :: tpl) = c :: render f tpl.
Proof. reflexivity. Qed.

Lemma render_cons_slot f k tpl :
  render f (inr k :: tpl) = f k ++ render f tpl.
Proof. reflexivity. Qed.

(** One replacement turns the placeholder of its slot into the value, and
    leaves the rest of a well-separated template as it is, as long as the
    texts standing for the other slots of the template do not contain the
    placeholder. *)
Lemma replace_render i v f tpl :
  well_separated tpl = true ->
  f i = token i ->
  (forall k, inr k ∈ tpl -> k <> i -> contains (token i) (f k) = false) ->
  replace (token i) v (render f tpl)
  = render (fun k => if bool_decide (k = i) then v else f k) tpl.
Proof.
  intros Hw Hi Hother. rewrite replace_token.
  destruct (token_head i) as [t Ht].
  induction tpl as [|[c|k] r IH]; [done| |].
  - cbn [well_separated] in Hw. apply andb_prop in Hw as [Hc Hw].
    rewrite !render_cons_lit, replace_go_miss.
    + f_equal. apply IH; [done|].
      intros k Hk. by apply Hother, list_elem_of_further.
    + rewrite Ht. cbn [starts_with]. apply negb_true_iff in Hc.
      by rewrite (N.eqb_sym 123 c), Hc.
  - cbn [well_separated] in Hw. apply andb_prop in Hw as [Hsep Hw].
    assert (Hrest : forall k', inr k' ∈ r -> k' <> i ->
                      contains (token i) (f k') = false)
      by (intros k' Hk'; by apply Hother, list_elem_of_further).
    specialize (IH Hw Hrest). rewrite !render_cons_slot.
    case_bool_decide as Hk.
    + subst k. rewrite Hi, Ht, replace_go_hit, <- Ht. by rewrite IH.
    + specialize (Hother k (list_elem_of_here _ _) Hk).
      destruct r as [|[c|k'] r]; [| |done].
      * cbn [render map concat]. rewrite !app_nil_r.
        rewrite Ht in Hother |- *. by apply replace_go_absent.
      * rewrite render_cons_lit in IH |- *.
        rewrite replace_go_value; [by rewrite IH|done|].
        apply token_char_false. by apply negb_true_iff.
Qed.

Section Interpolation.
Context `{!Lower}.
Variable req : AIRequest.

Lemma mix_start k : token k = mix req 0 k.
Proof. reflexivity. Qed.

Lemma mix_end k : mix req 7 k = input req k.
Proof. destruct k; cbv [mix slot_index Nat.ltb Nat.leb]; reflexivity. Qed.

Lemma mix_step i k :
  (if bool_decide (k = i) then input req i else mix req (slot_index i) k)
  = mix req (S (slot_index i)) k.
Proof.
  unfold mix. case_bool_decide as Hk.
  - subst k. destruct i; cbv [slot_index Nat.ltb Nat.leb]; reflexivity.
  - destruct i, k; try (exfalso; apply Hk; reflexivity);
      cbv [slot_index Nat.ltb Nat.leb]; reflexivity.
Qed.

Lemma replace_mix i j tpl :
  slot_index i = j ->
  well_separated tpl = true ->
  (forall k i', inr k ∈ tpl -> (slot_index k < slot_index i')%nat ->
     contains (token i') (input req k) = false) ->
  replace (token i) (input req i) (render (mix req j) tpl)
  = render (mix req (S j)) tpl.
Proof.
  intros <- Hw Hfree. rewrite replace_render.
  - apply render_ext. intros k. apply mix_step.
  - done.
  - unfold mix. by rewrite Nat.ltb_irrefl.
  - intros k Hin Hk. unfold mix.
    destruct (slot_index k <? slot_index i)%nat eqn:E.
    + apply Hfree; [done|]. by apply Nat.ltb_lt.
    + by apply token_distinct.
Qed.

(** The chain of [interpolate], written with the slots. *)
Lemma interpolate_tokens s :
  interpolate req s
  = replace (token Query) (input req Query)
      (replace (token PdfText) (input req PdfText)
         (replace (token VoiceText) (input req VoiceText)
            (replace (token Note2) (input req Note2)
               (replace (token Note1) (input req Note1)
                  (replace (token UserSyllabus) (input req UserSyllabus)
                     (replace (token UserNote) (input req UserNote) s)))))).
Proof. cbv beta iota delta [interpolate token input]. reflexivity. Qed.

(** On a well-separated template, when no value of a slot of the template
    contains the placeholder of a later slot, the seven chained
    replacements are the literal substitution. *)
Lemma interpolate_render tpl :
  well_separated tpl = true ->
  (forall k i, inr k ∈ tpl -> (slot_index k < slot_index i)%nat ->
     contains (token i) (input req k) = false) ->
  interpolate req (render token tpl) = render (input req) tpl.
Proof.
  intros Hw Hfree. rewrite interpolate_tokens.
  rewrite (render_ext token (mix req 0) tpl mix_start).
  rewrite (replace_mix UserNote 0 tpl eq_refl Hw Hfree).
  rewrite (replace_mix UserSyllabus 1 tpl eq_refl Hw Hfree).
  rewrite (replace_mix Note1 2 tpl eq_refl Hw Hfree).
  rewrite (replace_mix Note2 3 tpl eq_refl Hw Hfree).
  rewrite (replace_mix VoiceText 4 tpl eq_refl Hw Hfree).
  rewrite (replace_mix PdfText 5 tpl eq_refl Hw Hfree).
  rewrite (replace_mix Query 6 tpl eq_refl Hw Hfree).
  apply render_ext, mix_end.
Qed.

End Interpolation.

(** ** The registry *)

Lemma FLOW_PROMPTS_keys : FLOW_PROMPTS_items.*1 = recognized_flows.
Proof. vm_compute. reflexivity. Qed.

Lemma recognized_flows_NoDup : NoDup recognized_flows.
Proof. apply (bool_decide_unpack _). vm_compute. reflexivity. Qed.

Lemma FLOW_PROMPTS_None f :
  FLOW_PROMPTS !! f = None <-> f ∉ recognized_flows.
Proof.
  unfold FLOW_PROMPTS. rewrite <- FLOW_PROMPTS_keys.
  symmetry. apply not_elem_of_list_to_map.
Qed.

Lemma FLOW_PROMPTS_Some f t :
  FLOW_PROMPTS !! f = Some t -> (f, t) ∈ FLOW_PROMPTS_items.
Proof. apply elem_of_list_to_map_2. Qed.

(** Every template of the registry is well separated, and is recovered from
    its parse. *)
Lemma registry_well_separated :
  Forall (fun p => render token (parse_template p.2) = p.2
                   /\ well_separated (parse_template p.2) = true)
         FLOW_PROMPTS_items.
Proof.
  apply Forall_forall. intros p Hp.
  assert (Hall : forallb (fun p => bool_decide (render token (parse_template p.2) = p.2)
                                   && well_separated (parse_template p.2))
                         FLOW_PROMPTS_items = true)
    by (vm_compute; reflexivity).
  rewrite forallb_forall in Hall.
  apply list_elem_of_In, Hall, andb_prop in Hp as [Hr Hw].
  split; [by apply bool_decide_eq_true in Hr|done].
Qed.

Section Flow.
Context `{!Lower}.

(** C1 (as amended): for every flow of the registry and every request in
    which no value of a slot that the template uses contains the
    placeholder of a slot replaced later (the order is user_note,
    user_syllabus, note1, note2, voice_text, pdf_text, query), the
    interpolation of [ai_tools] is the literal substitution: each
    placeholder of the template is replaced by the value of its slot and
    nothing else changes.  A value may hold its own placeholder or that
    of an earlier slot: it is kept as it is. *)
Theorem C1_interpolate_literal (f t : str) (req : AIRequest)
  (Hflow : FLOW_PROMPTS !! f = Some t)
  (Hfree : rescan_free req t) :
  interpolate req t = substitute_literal req t.
Proof.
  apply FLOW_PROMPTS_Some in Hflow.
  pose proof registry_well_separated as Hreg.
  rewrite Forall_forall in Hreg.
  destruct (Hreg _ Hflow) as [Hr Hw]. simpl in Hr, Hw.
  unfold substitute_literal. rewrite <- Hr at 1.
  by apply interpolate_render.
Qed.

(** C5: a flow that is not one of the 16 recognized identifiers is
    answered by the exception 400 "Unknown flow", whatever the inputs, so
    before any interpolation or rule; a recognized flow has a template and
    is answered by the rule engine on the interpolated template; and the
    unknown flow is the only exception [ai_tools] raises. *)
Theorem C5_unknown_flow (req : AIRequest) :
  length recognized_flows = 16%nat
  /\ NoDup recognized_flows
  /\ (flow req ∉ recognized_flows -> ai_tools req = inl unknown_flow)
  /\ (flow req ∈ recognized_flows ->
      exists t, FLOW_PROMPTS !! flow req = Some t
        /\ ai_tools req = inr (simple_rule_engine (interpolate req t)))
  /\ (forall e, ai_tools req = inl e ->
        e = unknown_flow /\ flow req ∉ recognized_flows).
Proof.
  split; [reflexivity|]. split; [apply recognized_flows_NoDup|].
  unfold ai_tools.
  destruct (FLOW_PROMPTS !! flow req) as [t|] eqn:E.
  - assert (Hin : flow req ∈ recognized_flows).
    { destruct (decide (flow req ∈ recognized_flows)) as [|Hn]; [done|].
      apply FLOW_PROMPTS_None in Hn. congruence. }
    split; [done|]. split; [by exists t|]. discriminate.
  - apply FLOW_PROMPTS_None in E.
    split; [done|]. split; [done|]. by intros e [= <-].
Qed.

End Flow.

Lemma C1_interpolate_witness :
  let req :=
    {| flow := lit "compare_notes"; user_note := None; user_syllabus := None;
       note1 := Some (lit "see {{user_note}} and {{note1}}");
       note2 := Some (lit "b {{note1}}");
       voice_text := None; pdf_text := None;
       query := Some (lit "{{user_note}}") |} in
  interpolate req
    (lit "Compare these two notes and list similarities, differences, and key insights:\nNote 1: {{note1}}\nNote 2: {{note2}}")
  = lit "Compare these two notes and list similarities, differences, and key insights:\nNote 1: see {{user_note}} and {{note1}}\nNote 2: b {{note1}}".
Proof.
  intros req.
  rewrite (C1_interpolate_literal (lit "compare_notes") _ req).
  - vm_compute. reflexivity.
  - vm_compute. reflexivity.
  - intros k i _ Hlt.
    destruct k, i; cbv [slot_index] in Hlt; try lia; vm_compute; reflexivity.
Defined.

(** C1 (as stated) fails: a note that is the text of the query placeholder
    is replaced by the query when the last replacement scans it. *)
Lemma C1_rescan_counterexample :
  let req := sample_request "summarize" (Some (lit "{{query}}")) (Some (lit "X")) in
  let t := lit "Summarize this note clearly and simply:\n{{user_note}}" in
  FLOW_PROMPTS !! flow req = Some t
  /\ interpolate req t = lit "Summarize this note clearly and simply:\nX"
  /\ substitute_literal req t
     = lit "Summarize this note clearly and simply:\n{{query}}"
  /\ interpolate req t <> substitute_literal req t.
Proof.
  intros req t. repeat split; try (vm_compute; reflexivity).
  vm_compute. discriminate.
Qed.

Lemma C5_unknown_flow_witness :
  @ai_tools ascii_lower (sample_request "translate" (Some (lit "text")) None)
  = inl unknown_flow
  /\ @ai_tools ascii_lower (sample_request "bullet_points" (Some (lit "One. Two.")) None)
     = inr (lit "- One\n- Two").
Proof.
  split.
  - apply (@C5_unknown_flow ascii_lower).
    apply FLOW_PROMPTS_None. vm_compute. reflexivity.
  - vm_compute. reflexivity.
Defined.

(** * Further properties *)

(** ** Stripping keeps a trimmed text *)

Section StripShape.
Context (p : N -> bool).

Lemma lstrip_by_Forall (P : N -> Prop) s :
  Forall P s -> Forall P (lstrip_by p s).
Proof.
  induction 1 as [|c s Hc Hs IH]; simpl; [constructor|].
  destruct (p c); [exact IH|by constructor].
Qed.

Lemma strip_by_Forall (P : N -> Prop) s :
  Forall P s -> Forall P (strip_by p s).
Proof.
  intros Hs. unfold strip_by, rstrip_by.
  by apply Forall_rev, lstrip_by_Forall, Forall_rev, lstrip_by_Forall.
Qed.

Lemma lstrip_by_id s :
  (forall c, head s = Some c -> p c = false) -> lstrip_by p s = s.
Proof.
  destruct s as [|c s]; [done|]. intros Hc. simpl.
  by rewrite (Hc c eq_refl).
Qed.

Lemma strip_by_id s :
  (forall c, head s = Some c -> p c = false) ->
  (forall c, head (rev s) = Some c -> p c = false) ->
  strip_by p s = s.
Proof.
  intros Hh Hl. unfold strip_by, rstrip_by.
  by rewrite (lstrip_by_id s Hh), (lstrip_by_id (rev s) Hl), rev_involutive.
Qed.

Lemma strip_by_first s c : head (strip_by p s) = Some c -> p c = false.
Proof.
  destruct (strip_by p s) as [|d r] eqn:E; [discriminate|].
  intros [= <-]. exact (strip_by_head p s d r E).
Qed.

Lemma strip_by_last s c :
  head (rev (strip_by p s)) = Some c -> p c = false.
Proof.
  unfold strip_by, rstrip_by. rewrite rev_involutive.
  pose proof (lstrip_by_head p (rev (lstrip_by p s))) as Hh.
  destruct (lstrip_by p (rev (lstrip_by p s))); [discriminate|].
  by intros [= <-].
Qed.

Lemma strip_by_idemp s : strip_by p (strip_by p s) = strip_by p s.
Proof. apply strip_by_id; [apply strip_by_first|apply strip_by_last]. Qed.

End StripShape.

Lemma head_rev_last (s : str) : head (rev s) = last s.
Proof.
  induction s as [|c s _] using rev_ind; [done|].
  by rewrite rev_unit, last_snoc.
Qed.

Lemma trimmed_ends s :
  trimmed s ->
  (forall c, head s = Some c -> isspace c = false)
  /\ (forall c, head (rev s) = Some c -> isspace c = false).
Proof.
  unfold trimmed, strip. intros <-.
  split; intros c; [apply strip_by_first|apply strip_by_last].
Qed.

Lemma ends_trimmed s :
  (forall c, head s = Some c -> isspace c = false) ->
  (forall c, head (rev s) = Some c -> isspace c = false) ->
  trimmed s.
Proof. apply strip_by_id. Qed.

(** ** The lines of [splitlines] *)

Lemma flush_Forall (P : N -> Prop) cur rest :
  Forall P cur -> Forall (Forall P) rest -> Forall (Forall P) (flush cur rest).
Proof.
  intros Hc Hr. destruct cur; cbn [flush]; [done|].
  constructor; [|done]. by apply Forall_rev.
Qed.

(** No line of [splitlines] holds a line boundary. *)
Lemma splitlines_go_no_break n cur s :
  (length s <= n)%nat ->
  Forall (fun c => no_break c = true) cur ->
  Forall (Forall (fun c => no_break c = true)) (splitlines_go cur s).
Proof.
  revert cur s. induction n as [|n IH]; intros cur s Hn Hcur.
  - destruct s; [|simpl in Hn; lia]. by apply flush_Forall.
  - destruct s as [|c s]; [by apply flush_Forall|].
    simpl in Hn. cbn [splitlines_go].
    destruct (islinebreak c) eqn:Ec.
    + constructor; [by apply Forall_rev|].
      destruct s as [|d s]; [constructor|].
      destruct ((c =? 13) && (d =? 10)).
      * apply IH; [simpl in Hn; lia|constructor].
      * apply IH; [lia|constructor].
    + apply IH; [lia|]. constructor; [|done].
      unfold no_break. by rewrite Ec.
Qed.

Lemma splitlines_no_break s :
  Forall (Forall (fun c => no_break c = true)) (splitlines s).
Proof. by apply (splitlines_go_no_break (length s)). Qed.

(** A line without boundaries, followed by a line feed. *)
Lemma splitlines_go_line cur h x :
  Forall (fun c => no_break c = true) h ->
  splitlines_go cur (h ++ 10 :: x) = (rev cur ++ h) :: splitlines x.
Proof.
  intros Hh. revert cur. induction Hh as [|c h Hc Hh IH]; intros cur.
  - rewrite app_nil_r. by destruct x.
  - change ((c :: h) ++ 10 :: x) with (c :: (h ++ 10 :: x)).
    cbn [splitlines_go]. apply negb_true_iff in Hc. rewrite Hc, IH.
    simpl rev. by rewrite <- app_assoc.
Qed.

Lemma splitlines_go_end cur h :
  Forall (fun c => no_break c = true) h ->
  splitlines_go cur h = flush (rev h ++ cur) [].
Proof.
  intros Hh. revert cur. induction Hh as [|c h Hc Hh IH]; intros cur; [done|].
  cbn [splitlines_go]. apply negb_true_iff in Hc. rewrite Hc, IH.
  simpl rev. by rewrite <- app_assoc.
Qed.

(** Lines joined by line feeds are split back into the same lines. *)
Lemma splitlines_join ls :
  Forall (fun l => l <> [] /\ Forall (fun c => no_break c = true) l) ls ->
  splitlines (join nl ls) = ls.
Proof.
  induction 1 as [|l ls [Hne Hl] Hls IH]; [done|].
  destruct ls as [|l2 ls].
  - simpl. unfold splitlines. rewrite splitlines_go_end by done.
    rewrite app_nil_r. destruct (rev l) eqn:E.
    + apply (f_equal (@rev N)) in E. rewrite rev_involutive in E. done.
    + cbn [flush]. by rewrite <- E, rev_involutive.
  - change (join nl (l :: l2 :: ls)) with (l ++ 10 :: join nl (l2 :: ls)).
    unfold splitlines at 1. rewrite splitlines_go_line by done.
    by rewrite IH.
Qed.

Lemma stripped_nonempty_id ls :
  Forall (fun l => l <> [] /\ trimmed l) ls -> stripped_nonempty ls = ls.
Proof.
  unfold stripped_nonempty.
  induction 1 as [|l ls [Hne Ht] Hls IH]; [done|].
  simpl. rewrite Ht. destruct l; [done|]. simpl. by rewrite Ht, IH.
Qed.

Lemma stripped_nonempty_shape (P : N -> Prop) parts :
  Forall (Forall P) parts ->
  Forall (fun l => l <> [] /\ trimmed l /\ Forall P l)
         (stripped_nonempty parts).
Proof.
  unfold stripped_nonempty. induction 1 as [|x parts Hx Hp IH]; simpl.
  - constructor.
  - destruct (truthy (strip x)) eqn:E; [|exact IH].
    constructor; [|exact IH]. split; [by destruct (strip x)|].
    split; [apply strip_by_idemp|by apply strip_by_Forall].
Qed.

(** X1: every line the engine works on is not empty, has no leading or
    trailing whitespace, and holds no line boundary. *)
Theorem X1_prompt_lines_shape (prompt l : str) :
  l ∈ prompt_lines prompt ->
  l <> []
  /\ strip l = l
  /\ (forall c, head l = Some c -> isspace c = false)
  /\ (forall c, last l = Some c -> isspace c = false)
  /\ (forall c, c ∈ l -> islinebreak c = false).
Proof.
  intros Hl.
  pose proof (stripped_nonempty_shape _ _ (splitlines_no_break prompt)) as Hs.
  rewrite Forall_forall in Hs. destruct (Hs l Hl) as (Hne & Ht & Hb).
  destruct (trimmed_ends l Ht) as [Hh Hlast].
  split; [done|]. split; [done|]. split; [done|]. split.
  - intros c Hc. apply Hlast. by rewrite head_rev_last.
  - intros c Hc. rewrite Forall_forall in Hb.
    by apply negb_true_iff, Hb.
Qed.

Lemma prompt_lines_normal prompt :
  prompt_lines (join nl (prompt_lines prompt)) = prompt_lines prompt.
Proof.
  pose proof (stripped_nonempty_shape _ _ (splitlines_no_break prompt)) as Hs.
  fold (prompt_lines prompt) in Hs. unfold prompt_lines at 1.
  rewrite splitlines_join.
  - apply stripped_nonempty_id. eapply Forall_impl; [exact Hs|].
    intros l (? & ? & ?). done.
  - eapply Forall_impl; [exact Hs|]. intros l (? & ? & ?). done.
Qed.

Section Normal.
Context `{!Lower}.

(** X2: blank lines and the whitespace around lines do not count: a
    prompt and its stripped non-empty lines joined by line feeds have the
    same lines, header and body, and get the same answer. *)
Theorem X2_engine_normalises (prompt : str) :
  let normal := join nl (prompt_lines prompt) in
  prompt_lines normal = prompt_lines prompt
  /\ header normal = header prompt
  /\ body normal = body prompt
  /\ simple_rule_engine normal = simple_rule_engine prompt.
Proof.
  intros normal. pose proof (prompt_lines_normal prompt) as Hn.
  fold normal in Hn. unfold simple_rule_engine, header, body.
  by rewrite Hn.
Qed.

End Normal.

(** ** Header and body *)

Lemma join_head sep l ls : l <> [] -> head (join sep (l :: ls)) = head l.
Proof. destruct l, ls; done. Qed.

Lemma join_last sep ls l :
  last ls = Some l -> l <> [] -> last (join sep ls) = last l.
Proof.
  intros Hl Hne. induction ls as [|l0 ls IH]; [done|].
  destruct ls as [|l1 ls]; [by injection Hl as ->|].
  change (join sep (l0 :: l1 :: ls)) with (l0 ++ sep ++ join sep (l1 :: ls)).
  specialize (IH Hl). destruct (last l) as [x|] eqn:E.
  - by rewrite !last_app, IH.
  - apply last_None in E. done.
Qed.

Lemma lines_join_trimmed ls :
  Forall (fun l => l <> [] /\ trimmed l) ls -> trimmed (join nl ls).
Proof.
  intros Hs. destruct ls as [|l ls]; [done|]. rewrite Forall_forall in Hs.
  apply ends_trimmed.
  - destruct (Hs l) as [Hne Ht]; [apply list_elem_of_here|].
    rewrite join_head by done. by apply trimmed_ends.
  - intros c. rewrite head_rev_last.
    destruct (last (l :: ls)) as [ll|] eqn:E; [|by apply last_None in E].
    destruct (Hs ll) as [Hne Ht]; [by eapply last_Some_elem_of|].
    rewrite (join_last _ _ ll E Hne), <- head_rev_last.
    by apply trimmed_ends.
Qed.

Lemma prompt_lines_trimmed prompt :
  Forall (fun l => l <> [] /\ trimmed l) (prompt_lines prompt).
Proof.
  pose proof (stripped_nonempty_shape _ _ (splitlines_no_break prompt)) as Hs.
  eapply Forall_impl; [exact Hs|]. by intros l (? & ? & ?).
Qed.

Lemma body_trimmed prompt : trimmed (body prompt).
Proof.
  unfold body, body_of. pose proof (prompt_lines_trimmed prompt) as Hs.
  destruct (prompt_lines prompt) as [|l0 [|l1 ls]].
  - done.
  - by apply Forall_inv in Hs as [_ Ht].
  - cbn [length Nat.ltb Nat.leb drop]. apply lines_join_trimmed.
    by apply Forall_inv_tail in Hs.
Qed.

(** X3: header and body have no leading or trailing whitespace, and each
    is empty only for a prompt without any non-blank line. *)
Theorem X3_header_body_trimmed (prompt : str) :
  strip (body prompt) = body prompt
  /\ strip (header prompt) = header prompt
  /\ (body prompt = [] <-> prompt_lines prompt = [])
  /\ (header prompt = [] <-> prompt_lines prompt = []).
Proof.
  split; [apply body_trimmed|]. unfold header, header_of, body, body_of.
  pose proof (prompt_lines_trimmed prompt) as Hs.
  destruct (prompt_lines prompt) as [|l0 [|l1 ls]].
  - done.
  - apply Forall_inv in Hs as [Hne Ht]. cbn [length Nat.ltb Nat.leb].
    split; [done|]. split; split; done.
  - cbn [length Nat.ltb Nat.leb drop].
    pose proof (Forall_inv Hs) as [Hne0 Ht0].
    apply Forall_inv_tail, Forall_inv in Hs as [Hne1 _].
    split; [done|]. split; [|split; done]. split; [|done].
    intros E. destruct l1 as [|c l1]; [done|].
    destruct (join_cons_head nl c l1 ls) as [t Ht]. congruence.
Qed.

Section ShortAndCrispAll.
Context `{!Lower}.

(** X4: under a header that holds "short and crisp" and not
    "bullet points", a body of at most 220 characters is answered as it
    is, a longer one by its first 220 characters and the ellipsis; the
    answer never exceeds 221 characters. *)
Theorem X4_short_and_crisp (prompt : str)
  (Hprio : contains (lit "bullet points") (lower (header prompt)) = false)
  (Hm : contains (lit "short and crisp") (lower (header prompt)) = true) :
  simple_rule_engine prompt
  = (if (length (body prompt) <=? 220)%nat then body prompt
     else take 220 (body prompt) ++ lit "…")
  /\ (length (simple_rule_engine prompt) <= 221)%nat.
Proof.
  assert (Hout : simple_rule_engine prompt
                 = if (length (body prompt) <=? 220)%nat then body prompt
                   else take 220 (body prompt) ++ lit "…").
  { rewrite simple_rule_engine_dispatch. unfold apply_rules.
    rewrite Hprio, Hm. unfold short_and_crisp_rule, truncate.
    destruct (length (body prompt) <=? 220)%nat eqn:E.
    - apply Nat.leb_le in E.
      destruct (220 <? length (body prompt))%nat eqn:E'.
      { apply Nat.ltb_lt in E'. lia. }
      rewrite app_nil_r, take_ge by done. apply body_trimmed.
    - apply Nat.leb_gt in E.
      destruct (220 <? length (body prompt))%nat eqn:E'.
      2:{ apply Nat.ltb_ge in E'. lia. }
      destruct (body prompt) as [|c r] eqn:Eb; [simpl in E; lia|].
      change (take 220 (c :: r)) with (c :: take 219 r).
      apply strip_by_fixed; [|reflexivity].
      exact (body_head _ _ _ Eb). }
  split; [exact Hout|]. rewrite Hout.
  destruct (length (body prompt) <=? 220)%nat eqn:E.
  - apply Nat.leb_le in E. lia.
  - rewrite length_app, length_take. change (length (lit "…")) with 1%nat. lia.
Qed.

End ShortAndCrispAll.

Lemma X4_short_and_crisp_witness :
  @simple_rule_engine ascii_lower
    (lit "Create a short and crisp version of this:\n  A small note. \n\n Two lines.")
  = lit "A small note.\nTwo lines.".
Proof.
  destruct (@X4_short_and_crisp ascii_lower
              (lit "Create a short and crisp version of this:\n  A small note. \n\n Two lines."))
    as [-> _]; vm_compute; reflexivity.
Defined.

Lemma X1_prompt_lines_witness :
  strip (lit "second line") = lit "second line"
  /\ (forall c, c ∈ lit "second line" -> islinebreak c = false).
Proof.
  destruct (X1_prompt_lines_shape (lit "First\n\n  second line \n")
              (lit "second line")) as (_ & Ht & _ & _ & Hb).
  - vm_compute. apply list_elem_of_further, list_elem_of_here.
  - split; [exact Ht|exact Hb].
Defined.

(** ** Sentence segments *)

Lemma split_on_no_sep sep s :
  Forall (Forall (fun c => c <> sep)) (split_on sep s).
Proof.
  induction s as [|c s IH]; simpl; [repeat constructor|].
  destruct (c =? sep) eqn:E; [by constructor|].
  apply N.eqb_neq in E.
  destruct (split_on sep s) as [|w ws]; [repeat constructor; done|].
  apply Forall_cons in IH as [Hw Hws]. constructor; [|done].
  by constructor.
Qed.

Lemma segments_shape bd :
  Forall (fun l => l <> [] /\ trimmed l /\ Forall (fun c => c <> 46) l)
         (segments bd).
Proof. apply stripped_nonempty_shape, split_on_no_sep. Qed.

Lemma join_nonempty sep c l ls : join sep ((c :: l) :: ls) <> [].
Proof. destruct (join_cons_head sep c l ls) as [t ->]. done. Qed.

Section Bullets.
Context `{!Lower}.

Lemma rule_of_bullet_points r :
  In (lit "bullet points", r) rules -> r = bullet_points_rule.
Proof. intros Hin. rule_cases Hin. Qed.

(** X5: when "bullet points" is the first matcher found in the header,
    the answer has one bullet for each sentence segment of the body, the
    segment after a hyphen and a space, bullets separated by line feeds;
    the segments are not empty, have no surrounding whitespace and hold no
    full stop.  A body without any segment is answered as it is. *)
Theorem X5_bullet_points (prompt : str)
  (Hsel : first_match (header prompt) = Some (lit "bullet points")) :
  let segs := segments (body prompt) in
  simple_rule_engine prompt
  = match segs with
    | [] => body prompt
    | _ :: _ => join nl (map (fun s => lit "- " ++ s) segs)
    end
  /\ (forall s, s ∈ segs ->
        s <> [] /\ strip s = s /\ (forall c, c ∈ s -> c <> 46)).
Proof.
  intros segs. split.
  - rewrite simple_rule_engine_dispatch.
    destruct (first_match_apply _ (body prompt) _ Hsel) as (r & Hin & ->).
    apply rule_of_bullet_points in Hin as ->.
    unfold bullet_points_rule. fold segs. destruct segs as [|s segs']; [done|].
    cbn [map]. change (lit "- " ++ s) with (45 :: 32 :: s).
    destruct (join_cons_head nl 45 (32 :: s)
                (map (fun s => lit "- " ++ s) segs')) as [t ->].
    done.
  - intros s Hs. pose proof (segments_shape (body prompt)) as Hshape.
    rewrite Forall_forall in Hshape.
    destruct (Hshape s Hs) as (Hne & Ht & Hdot).
    split; [done|]. split; [done|]. by rewrite Forall_forall in Hdot.
Qed.

End Bullets.

Lemma X5_bullet_points_witness :
  @simple_rule_engine ascii_lower
    (lit "Turn this into clean bullet points:\nFirst idea.  Second idea .. Third")
  = lit "- First idea\n- Second idea\n- Third".
Proof.
  destruct (@X5_bullet_points ascii_lower
              (lit "Turn this into clean bullet points:\nFirst idea.  Second idea .. Third"))
    as [-> _]; vm_compute; reflexivity.
Defined.

(** ** Interpolation and the text of the template *)

Lemma replace_plain_prefix i v pre s :
  Forall (fun c => c <> 123) pre ->
  replace (token i) v (pre ++ s) = pre ++ replace (token i) v s.
Proof.
  intros Hpre. rewrite !replace_token. destruct (token_head i) as [t Ht].
  induction Hpre as [|c pre Hc Hpre IH]; [done|].
  change ((c :: pre) ++ s) with (c :: (pre ++ s)).
  rewrite replace_go_miss; [by rewrite IH|].
  rewrite Ht. cbn [starts_with].
  by rewrite (proj2 (N.eqb_neq 123 c)) by done.
Qed.

Section PlainPrefix.
Context `{!Lower}.

Lemma interpolate_plain_prefix req pre s :
  Forall (fun c => c <> 123) pre ->
  interpolate req (pre ++ s) = pre ++ interpolate req s.
Proof.
  intros Hpre. rewrite !interpolate_tokens.
  by rewrite !replace_plain_prefix.
Qed.

(** X6: interpolation leaves alone the text of a template that comes
    before its first opening brace, whatever the values are; a text
    without opening brace is returned as it is. *)
Theorem X6_interpolate_keeps_plain_text (req : AIRequest) (pre s : str)
  (Hpre : forall c, c ∈ pre -> c <> 123) :
  interpolate req (pre ++ s) = pre ++ interpolate req s
  /\ interpolate req pre = pre.
Proof.
  assert (Hall : Forall (fun c => c <> 123) pre) by by apply Forall_forall.
  split; [by apply interpolate_plain_prefix|].
  rewrite <- (app_nil_r pre) at 1.
  rewrite interpolate_plain_prefix by done. by rewrite app_nil_r.
Qed.

End PlainPrefix.

Lemma X6_interpolate_witness :
  interpolate (sample_request "eli5" (Some (lit "rain {{query}}")) (Some (lit "falls")))
    (lit "Explain the following note like I am 5 years old:\n" ++ lit "{{user_note}}")
  = lit "Explain the following note like I am 5 years old:\n"
    ++ lit "rain falls".
Proof.
  destruct (X6_interpolate_keeps_plain_text
              (sample_request "eli5" (Some (lit "rain {{query}}")) (Some (lit "falls")))
              (lit "Explain the following note like I am 5 years old:\n")
              (lit "{{user_note}}")) as [-> _].
  - intros c Hc. apply list_elem_of_In in Hc. vm_compute in Hc.
    repeat (destruct Hc as [<-|Hc]; [discriminate|]). destruct Hc.
  - vm_compute. reflexivity.
Defined.

(** ** The header of a flow *)

Lemma header_fixed_split t :
  header_fixed t = true ->
  t = first_line t ++ 10 :: after_first_line t
  /\ Forall (fun c => c <> 123) (first_line t ++ [10])
  /\ Forall (fun c => no_break c = true) (first_line t)
  /\ first_line t <> []
  /\ strip (first_line t) = first_line t.
Proof.
  unfold header_fixed. intros H.
  apply andb_prop in H as [H Hs]. apply andb_prop in H as [H Ht].
  apply andb_prop in H as [He Hp].
  apply bool_decide_eq_true in He, Hs. rewrite forallb_forall in Hp.
  split; [done|]. split; [|split; [|split; [by destruct (first_line t)|done]]].
  - apply Forall_app. split; [|by repeat constructor].
    apply Forall_forall. intros c Hc. apply list_elem_of_In, Hp in Hc.
    apply andb_prop in Hc as [Hc _]. apply negb_true_iff in Hc.
    by apply N.eqb_neq.
  - apply Forall_forall. intros c Hc. apply list_elem_of_In, Hp in Hc.
    by apply andb_prop in Hc as [_ Hc].
Qed.

Lemma prompt_lines_first h x :
  Forall (fun c => no_break c = true) h -> h <> [] -> strip h = h ->
  prompt_lines (h ++ 10 :: x) = h :: prompt_lines x.
Proof.
  intros Hb Hne Hs. unfold prompt_lines, splitlines.
  rewrite splitlines_go_line by done. unfold stripped_nonempty.
  cbn [rev app List.filter]. rewrite Hs.
  destruct h as [|c h]; [done|]. cbn [truthy map]. by rewrite Hs.
Qed.

Section FixedHeader.
Context `{!Lower}.

Lemma fixed_header_lines req t :
  header_fixed t = true ->
  prompt_lines (interpolate req t)
  = first_line t :: prompt_lines (interpolate req (after_first_line t)).
Proof.
  intros Hfix.
  destruct (header_fixed_split t Hfix) as (Ht & Hplain & Hb & Hne & Hs).
  rewrite Ht at 1. rewrite (cons_middle 10), app_assoc.
  rewrite interpolate_plain_prefix by done.
  rewrite <- app_assoc. by apply prompt_lines_first.
Qed.

End FixedHeader.

(** Evaluates the tests of the chain on a closed header. *)
Ltac eval_contains :=
  repeat
    match goal with
    | |- context [contains ?m ?s] =>
        let b := eval vm_compute in (contains m s) in
        let E := fresh "E" in
        assert (E : contains m s = b) by (vm_compute; reflexivity);
        rewrite E; clear E; cbv beta iota
    end.

Section FlowDispatch.
Context `{!Lower}.
Hypothesis Hlow : lowers_headers.

(** Each flow of [flow_rules] has a fixed header, on which the chain of
    tests ends in the rule of the flow. *)
Lemma flow_rule_applied f t r :
  In (f, r) flow_rules ->
  FLOW_PROMPTS !! f = Some t ->
  header_fixed t = true /\ (forall bd, apply_rules (first_line t) bd = r bd).
Proof.
  intros Hin. unfold flow_rules in Hin. cbv beta iota zeta delta [In] in Hin.
  repeat
    (destruct Hin as [Hin|Hin];
     [ apply pair_equal_spec in Hin as [<- <-];
       intros Et; pose proof (Hlow _ _ Et) as Hh;
       vm_compute in Et; injection Et as <-;
       split; [vm_compute; reflexivity|];
       intros bd; unfold apply_rules; cbv zeta; rewrite Hh;
       eval_contains; reflexivity
     | ]).
  destruct Hin.
Qed.

Lemma flow_engine req f t r :
  In (f, r) flow_rules ->
  FLOW_PROMPTS !! f = Some t ->
  header (interpolate req t) = first_line t
  /\ simple_rule_engine (interpolate req t) = r (body (interpolate req t)).
Proof.
  intros Hin Et. destruct (flow_rule_applied f t r Hin Et) as [Hfix Hr].
  assert (Hh : header (interpolate req t) = first_line t).
  { unfold header. by rewrite fixed_header_lines. }
  split; [exact Hh|]. by rewrite simple_rule_engine_dispatch, Hh.
Qed.

(** X7: for the fifteen flows other than [memory_recall], the inputs have
    no say in the rule: the header of the interpolated prompt is the first
    line of the template, and [ai_tools] answers with the rule of the flow
    applied to the body. *)
Theorem X7_flow_decides_rule (req : AIRequest) (f : str) (r : str -> str)
  (Hin : In (f, r) flow_rules)
  (Hf : flow req = f) :
  exists t, FLOW_PROMPTS !! f = Some t
    /\ header (interpolate req t) = first_line t
    /\ ai_tools req = inr (r (body (interpolate req t))).
Proof.
  destruct (FLOW_PROMPTS !! f) as [t|] eqn:Et.
  - exists t. destruct (flow_engine req f t r Hin Et) as [Hh He].
    split; [done|]. split; [done|]. unfold ai_tools. by rewrite Hf, Et, He.
  - exfalso. unfold flow_rules in Hin. cbv beta iota zeta delta [In] in Hin.
    repeat (destruct Hin as [Hin|Hin];
            [apply pair_equal_spec in Hin as [<- _];
             vm_compute in Et; discriminate Et|]).
    destruct Hin.
Qed.

(** X8: the flows [study_plan] and [compare_notes] answer with a fixed
    text, whatever the inputs. *)
Theorem X8_fixed_answers (req : AIRequest) :
  (flow req = lit "study_plan" ->
   ai_tools req
   = inr (lit "7-Day Plan:\n- Day 1: Read basics\n- Day 2: Key terms\n- Day 3: Practice\n- Day 4: Review\n- Day 5: Quiz\n- Day 6: Revise\n- Day 7: Mock test\n\n30-Day Plan:\n- Weeks 1-3: Deep dive and exercises\n- Week 4: Consolidation, mocks, revision"))
  /\ (flow req = lit "compare_notes" ->
      ai_tools req
      = inr (lit "Similarities: ...\nDifferences: ...\nKey insights: ...")).
Proof.
  split; intros Hf; unfold ai_tools; rewrite Hf.
  - destruct (FLOW_PROMPTS !! lit "study_plan") as [t|] eqn:Et;
      [|vm_compute in Et; discriminate Et].
    assert (Hin : In (lit "study_plan", study_plan_rule) flow_rules).
    { unfold flow_rules. cbv [In]. do 11 right. left. reflexivity. }
    destruct (flow_engine req (lit "study_plan") t study_plan_rule Hin Et)
      as [_ ->].
    unfold study_plan_rule. vm_compute. reflexivity.
  - destruct (FLOW_PROMPTS !! lit "compare_notes") as [t|] eqn:Et;
      [|vm_compute in Et; discriminate Et].
    assert (Hin : In (lit "compare_notes", compare_notes_rule) flow_rules).
    { unfold flow_rules. cbv [In]. do 12 right. left. reflexivity. }
    destruct (flow_engine req (lit "compare_notes") t compare_notes_rule
                Hin Et) as [_ ->].
    reflexivity.
Qed.

End FlowDispatch.

(** ** A flow without input *)

Lemma splitlines_go_Forall (P : N -> Prop) n cur s :
  (length s <= n)%nat -> Forall P cur -> Forall P s ->
  Forall (Forall P) (splitlines_go cur s).
Proof.
  revert cur s. induction n as [|n IH]; intros cur s Hn Hcur Hs.
  - destruct s; [|simpl in Hn; lia]. by apply flush_Forall.
  - destruct s as [|c s]; [by apply flush_Forall|].
    simpl in Hn. apply Forall_cons in Hs as [Hc Hs]. cbn [splitlines_go].
    destruct (islinebreak c).
    + constructor; [by apply Forall_rev|].
      destruct s as [|d s]; [constructor|].
      destruct ((c =? 13) && (d =? 10)).
      * apply Forall_cons in Hs as [_ Hs].
        apply IH; [simpl in Hn; lia|constructor|done].
      * apply IH; [lia|constructor|done].
    + apply IH; [lia|by constructor|done].
Qed.

Lemma lstrip_by_all p s : Forall (fun c => p c = true) s -> lstrip_by p s = [].
Proof. induction 1 as [|c s Hc Hs IH]; simpl; [done|]. by rewrite Hc. Qed.

Lemma stripped_nonempty_blank parts :
  Forall (Forall (fun c => isspace c = true)) parts ->
  stripped_nonempty parts = [].
Proof.
  unfold stripped_nonempty. induction 1 as [|x parts Hx Hp IH]; [done|].
  assert (Hsx : strip x = []).
  { unfold strip, strip_by. by rewrite (lstrip_by_all _ _ Hx). }
  cbn [List.filter]. rewrite Hsx. exact IH.
Qed.

Lemma prompt_lines_blank v : blank v = true -> prompt_lines v = [].
Proof.
  intros Hv. unfold blank in Hv. rewrite forallb_forall in Hv.
  assert (Hall : Forall (fun c => isspace c = true) v).
  { apply Forall_forall. intros c Hc. by apply Hv, list_elem_of_In. }
  apply stripped_nonempty_blank.
  by apply (splitlines_go_Forall _ (length v)).
Qed.

Lemma contains_blank tok v :
  blank v = true -> contains (123 :: tok) v = false.
Proof.
  unfold blank. induction v as [|c v IH]; [done|].
  cbn [forallb contains starts_with]. intros Hv.
  apply andb_prop in Hv as [Hc Hv]. rewrite (IH Hv).
  destruct (N.eqb_spec 123 c) as [<-|Hne]; [|done].
  vm_compute in Hc. discriminate Hc.
Qed.

Lemma replace_blank j x v : blank v = true -> replace (token j) x v = v.
Proof.
  intros Hv. apply replace_absent. destruct (token_head j) as [t ->].
  by apply contains_blank.
Qed.

Lemma replace_other j k x : k <> j -> replace (token j) x (token k) = token k.
Proof. intros Hne. by apply replace_absent, token_distinct. Qed.

Lemma replace_self k v : replace (token k) v (token k) = v.
Proof.
  rewrite replace_token. destruct (token_head k) as [t ->].
  rewrite <- (app_nil_r (123 :: t)) at 2.
  rewrite replace_go_hit. apply app_nil_r.
Qed.

Section NoInput.
Context `{!Lower}.

(** A template that is one placeholder, with a blank value for it. *)
Lemma interpolate_token_blank req k :
  blank (input req k) = true -> interpolate req (token k) = input req k.
Proof.
  intros Hv. rewrite interpolate_tokens.
  destruct k;
    repeat first
      [ rewrite replace_self
      | rewrite replace_other by discriminate
      | rewrite (replace_blank _ _ _ Hv) ];
    reflexivity.
Qed.

Hypothesis Hlow : lowers_headers.

(** X9: when the template of a flow is its first line followed by the
    placeholder of one slot, and the value of that slot is absent, empty
    or made of whitespace, the rule of the flow is applied to the first
    line of the template itself. *)
Theorem X9_blank_input (req : AIRequest) (f t : str) (r : str -> str)
  (k : slot)
  (Hin : In (f, r) flow_rules)
  (Ht : FLOW_PROMPTS !! f = Some t)
  (Hk : after_first_line t = token k)
  (Hv : blank (input req k) = true)
  (Hf : flow req = f) :
  ai_tools req = inr (r (first_line t)).
Proof.
  destruct (flow_rule_applied Hlow f t r Hin Ht) as [Hfix Hr].
  unfold ai_tools. rewrite Hf, Ht, simple_rule_engine_dispatch.
  unfold header, body.
  rewrite fixed_header_lines, Hk, interpolate_token_blank by done.
  rewrite prompt_lines_blank by done.
  cbn [header_of body_of length Nat.ltb Nat.leb]. by rewrite Hr.
Qed.

End NoInput.

Lemma ascii_lowers_headers : @lowers_headers ascii_lower.
Proof. intros f t _. reflexivity. Qed.

Lemma X7_flow_decides_rule_witness :
  let req :=
    sample_request "mcqs" (Some (lit "flashcards\nbullet points")) None in
  exists t,
    FLOW_PROMPTS !! lit "mcqs" = Some t
    /\ header (interpolate req t) = first_line t
    /\ @ai_tools ascii_lower req = inr (mcqs_rule (body (interpolate req t))).
Proof.
  intros req.
  assert (Hin : In (lit "mcqs", mcqs_rule) (@flow_rules ascii_lower)).
  { unfold flow_rules. cbv [In]. do 6 right. left. reflexivity. }
  exact (@X7_flow_decides_rule ascii_lower ascii_lowers_headers req
           (lit "mcqs") mcqs_rule Hin eq_refl).
Defined.

Lemma X8_fixed_answers_witness :
  @ai_tools ascii_lower
    (sample_request "compare_notes" (Some (lit "anything")) (Some (lit "at all")))
  = inr (lit "Similarities: ...\nDifferences: ...\nKey insights: ...").
Proof.
  destruct (@X8_fixed_answers ascii_lower ascii_lowers_headers
              (sample_request "compare_notes" (Some (lit "anything"))
                 (Some (lit "at all")))) as [_ Hcompare].
  apply Hcompare. reflexivity.
Defined.

Lemma X9_blank_input_witness :
  @ai_tools ascii_lower (sample_request "summarize" (Some (lit "  \n ")) None)
  = inr (lit "Summary: Summarize this note clearly and simply:").
Proof.
  rewrite (@X9_blank_input ascii_lower ascii_lowers_headers
             (sample_request "summarize" (Some (lit "  \n ")) None)
             (lit "summarize")
             (lit "Summarize this note clearly and simply:\n{{user_note}}")
             summarize_rule UserNote).
  - vm_compute. reflexivity.
  - unfold flow_rules. cbv [In]. left. reflexivity.
  - vm_compute. reflexivity.
  - vm_compute. reflexivity.
  - vm_compute. reflexivity.
  - reflexivity.
Defined.

(** ** Scores *)

Lemma count_go_zero sub s :
  sub <> [] -> count_go sub O s = O <-> contains sub s = false.
Proof.
  intros Hne. induction s as [|c s IH].
  - by destruct sub.
  - cbn [count_go contains].
    destruct (starts_with sub (c :: s)); [split; discriminate|].
    by rewrite IH.
Qed.

Lemma count_go_le sub k s : (count_go sub k s <= length s)%nat.
Proof.
  revert k. induction s as [|c s IH]; intros k; [done|].
  cbn [count_go length]. destruct k as [|k].
  - destruct (starts_with sub (c :: s)).
    + specialize (IH (pred (length sub))). lia.
    + specialize (IH O). lia.
  - specialize (IH k). lia.
Qed.

Section Scores.
Context `{!Lower}.

(** X10: for a query whose lowercase form is not empty, a note scores 0
    exactly when the lowercased query does not occur in the lowercased
    text of the note (its original note, a space, its processed note), and
    the score never exceeds the length of that text. *)
Theorem X10_score_zero (q : str) (n : note) (Hq : lower q <> []) :
  let text :=
    lower (or_empty (original_note n) ++ lit " "
           ++ or_empty (processed_note n)) in
  (score q n = O <-> contains (lower q) text = false)
  /\ (score q n <= length text)%nat.
Proof.
  intros text. unfold score, get_or_empty. fold text. unfold count.
  destruct (lower q) as [|c lq] eqn:E; [done|].
  split; [by apply count_go_zero|apply count_go_le].
Qed.

(** X11: the notes recall leaves out never beat the notes it keeps: the
    stored notes are the notes kept together with the notes left out, and
    no note left out scores more than a note kept. *)
Theorem X11_recall_keeps_best (notes : list note) (q : str) :
  exists rest,
    top_notes notes q ++ rest ≡ₚ notes
    /\ (forall a b, a ∈ top_notes notes q -> b ∈ rest ->
          (score q b <= score q a)%nat)
    /\ (rest = [] <-> (length notes <= 5)%nat).
Proof.
  exists (drop 5 (sorted_reverse (score q) notes)). unfold top_notes.
  split; [by rewrite take_drop, sorted_reverse_perm|]. split.
  - intros a b Ha Hb.
    pose proof (sorted_reverse_sorted (score q) notes) as Hs.
    rewrite <- (take_drop 5 (sorted_reverse (score q) notes)) in Hs.
    exact (StronglySorted_app_1_elem_of _ _ _ _ _ Hs Ha Hb).
  - rewrite <- (sorted_reverse_length (score q) notes).
    split; [apply drop_nil_inv|apply drop_ge].
Qed.

End Scores.

Lemma X10_score_zero_witness :
  @score ascii_lower (lit "Cats")
    (sample_note (Some (lit "dogs are loyal")) None) = O.
Proof.
  assert (Hq : @lower ascii_lower (lit "Cats") <> [])
    by (vm_compute; discriminate).
  destruct (@X10_score_zero ascii_lower (lit "Cats")
              (sample_note (Some (lit "dogs are loyal")) None) Hq)
    as [[_ Hzero] _].
  apply Hzero. vm_compute. reflexivity.
Defined.

(** ** Replacing by a shorter text *)

Lemma starts_with_length p s :
  starts_with p s = true -> (length p <= length s)%nat.
Proof.
  revert s. induction p as [|a p IH]; intros s; [simpl; lia|].
  destruct s as [|b s]; [discriminate|]. simpl.
  intros H. apply andb_prop in H as [_ H]. apply IH in H. lia.
Qed.

Lemma replace_go_length old new k s :
  (length new <= length old)%nat -> old <> [] ->
  (length (replace_go old new k s) + (k `min` length s) <= length s)%nat.
Proof.
  intros Hlen Hne. revert k. induction s as [|c s IH]; intros k.
  - simpl. lia.
  - cbn [replace_go length]. destruct k as [|k].
    + destruct (starts_with old (c :: s)) eqn:E.
      * apply starts_with_length in E. simpl in E.
        specialize (IH (pred (length old))). rewrite length_app.
        destruct old; [done|]. simpl in *. lia.
      * specialize (IH O). simpl. lia.
    + specialize (IH k). lia.
Qed.

Lemma replace_length_le old new s :
  old <> [] -> (length new <= length old)%nat ->
  (length (replace old new s) <= length s)%nat.
Proof.
  intros Hne Hlen. destruct old as [|o old]; [done|]. unfold replace.
  pose proof (replace_go_length (o :: old) new O s Hlen Hne). lia.
Qed.

Section VoiceLength.
Context `{!Lower}.

(** X12: the voice-cleanup rule never makes the text longer. *)
Theorem X12_voice_cleanup_length (prompt : str)
  (Hsel : first_match (header prompt)
          = Some (lit "clean and format this speech transcript")) :
  (length (simple_rule_engine prompt) <= length (body prompt))%nat.
Proof.
  rewrite simple_rule_engine_dispatch.
  destruct (first_match_apply _ (body prompt) _ Hsel) as (r & Hin & ->).
  apply rule_of_voice_cleanup in Hin as ->. unfold voice_cleanup_rule.
  etrans; [apply replace_length_le|etrans; [apply replace_length_le|
    apply replace_length_le]];
    first [ by (intros E; vm_compute in E; discriminate E)
          | by (apply Nat.leb_le; vm_compute; reflexivity) ].
Qed.

End VoiceLength.

Lemma X12_voice_cleanup_witness :
  (length (@simple_rule_engine ascii_lower
             (lit "Clean and format this speech transcript.\nso um we kinda met"))
   <= length (lit "so um we kinda met"))%nat.
Proof.
  etrans; [apply (@X12_voice_cleanup_length ascii_lower)|];
    vm_compute; reflexivity.
Defined.

(** ** The status endpoint *)

(** X13: the status endpoint always reports the backend as running and
    never reports the database as "Not Available"; it reports "Connected"
    exactly when there is a database handle and listing its collections
    succeeded, and only then does it report collections; without a handle
    it reports neither the URL nor the name; the text of a listing error is
    cut to 80 characters. *)
Theorem X13_status_report (db : option (str + list str))
    (url name : option str) :
  let r := test_database db url name in
  backend r = lit "✅ Running"
  /\ database r <> lit "❌ Not Available"
  /\ (connection_status r = lit "Connected"
      <-> exists names, db = Some (inr names))
  /\ (forall names, db = Some (inr names) -> collections r = names)
  /\ ((forall names, db <> Some (inr names)) -> collections r = [])
  /\ (db = None <-> database_url r = None)
  /\ (db = None <-> database_name r = None)
  /\ (forall e, db = Some (inl e) ->
        database r = lit "⚠️ Connected but Error: " ++ take 80 e
        /\ (length (database r) <= 104)%nat).
Proof.
  intros r. subst r.
  destruct db as [[e|names]|];
    cbv [test_database initial_response set_database set_database_url
         set_database_name set_connection_status set_collections
         backend database database_url database_name connection_status
         collections].
  - split; [done|]. split; [intros E; vm_compute in E; discriminate E|].
    split.
    { split; [intros E; vm_compute in E; discriminate E|].
      intros [names [=]]. }
    split; [by intros names [=]|]. split; [done|].
    split; [split; discriminate|]. split; [split; discriminate|].
    intros e' [= <-]. split; [done|].
    rewrite length_app, length_take.
    change (length (lit "⚠️ Connected but Error: ")) with 24%nat. lia.
  - split; [done|]. split; [intros E; vm_compute in E; discriminate E|].
    split; [split; [by eexists|done]|].
    split; [by intros names' [= <-]|].
    split; [intros Hn; by destruct (Hn names)|].
    split; [split; discriminate|]. split; [split; discriminate|].
    intros e [=].
  - split; [done|]. split; [intros E; vm_compute in E; discriminate E|].
    split.
    { split; [intros E; vm_compute in E; discriminate E|].
      intros [names [=]]. }
    split; [by intros names [=]|]. split; [done|].
    split; [done|]. split; [done|]. intros e [=].
Qed.

(** ** The summarize flow *)

Section SummarizeFlow.
Context `{!Lower}.
Hypothesis Hlow : lowers_headers.

(** X14: the flow [summarize] answers with "Summary: " followed by the
    body of the interpolated prompt when it has at most 400 characters,
    and by its first 400 characters and the ellipsis otherwise; the answer
    never exceeds 410 characters. *)
Theorem X14_summarize_flow (req : AIRequest)
  (Hf : flow req = lit "summarize") :
  exists t out,
    FLOW_PROMPTS !! lit "summarize" = Some t
    /\ ai_tools req = inr out
    /\ out = lit "Summary: "
             ++ (if (length (body (interpolate req t)) <=? 400)%nat
                 then body (interpolate req t)
                 else take 400 (body (interpolate req t)) ++ lit "…")
    /\ (length out <= 410)%nat.
Proof.
  destruct (FLOW_PROMPTS !! lit "summarize") as [t|] eqn:Et;
    [|vm_compute in Et; discriminate Et].
  assert (Hin : In (lit "summarize", summarize_rule) flow_rules).
  { unfold flow_rules. cbv [In]. left. reflexivity. }
  destruct (flow_engine Hlow req (lit "summarize") t summarize_rule Hin Et)
    as [_ He].
  exists t, (summarize_rule (body (interpolate req t))).
  split; [done|]. split; [unfold ai_tools; by rewrite Hf, Et, He|].
  unfold summarize_rule, truncate.
  set (bd := body (interpolate req t)).
  assert (Hnine : length (lit "Summary: ") = 9%nat) by reflexivity.
  destruct (length bd <=? 400)%nat eqn:E.
  - apply Nat.leb_le in E.
    destruct (400 <? length bd)%nat eqn:E';
      [apply Nat.ltb_lt in E'; lia|].
    rewrite app_nil_r, take_ge by done. split; [done|].
    rewrite length_app, Hnine. lia.
  - apply Nat.leb_gt in E.
    destruct (400 <? length bd)%nat eqn:E';
      [|apply Nat.ltb_ge in E'; lia].
    split; [done|].
    rewrite !length_app, length_take, Hnine.
    change (length (lit "…")) with 1%nat. lia.
Qed.

End SummarizeFlow.

Lemma X14_summarize_flow_witness :
  exists t out,
    FLOW_PROMPTS !! lit "summarize" = Some t
    /\ @ai_tools ascii_lower
         (sample_request "summarize" (Some (lit "Water boils at 100 degrees.")) None)
       = inr out
    /\ out = lit "Summary: "
             ++ (if (length (body (interpolate
                    (sample_request "summarize" (Some (lit "Water boils at 100 degrees.")) None) t))
                     <=? 400)%nat
                 then body (interpolate
                    (sample_request "summarize" (Some (lit "Water boils at 100 degrees.")) None) t)
                 else take 400 (body (interpolate
                    (sample_request "summarize" (Some (lit "Water boils at 100 degrees.")) None) t))
                      ++ lit "…")
    /\ (length out <= 410)%nat.
Proof.
  exact (@X14_summarize_flow ascii_lower ascii_lowers_headers
           (sample_request "summarize" (Some (lit "Water boils at 100 degrees.")) None)
           eq_refl).
Defined.
